(** * background.py: acquisition scheduler and request-queue worker

    A shallow embedding of [src/background.py].

    - Values that travel through JSON are the inductive type [Py.value];
      floats are binary64 numbers, ints are unbounded.
    - An exception is the [Raise] case of [Py.res]; [try ... except
      Exception] is [World.try_except].
    - The Redis connection (string keys with their expiry argument, and
      the list request_queue), the table api_acqusitiondatesinfo, the GET
      requests issued and the log are the fields of [World.world], threaded
      through the state-and-exception monad [World.M].
    - Library behaviour the module only passes on (json.loads, json.dumps,
      str(), int() on text, datetime.strptime) and the outside world (the two
      HTTP endpoints, the clock, whether a database statement succeeds) are
      the fields of the record [env]; every statement holds for every [env].
    - datetime arithmetic and strftime are modelled on the proleptic
      Gregorian calendar, years 1 to 9999; month, day and time fields are
      zero-padded to two digits, the year is printed without padding.

    Each coroutine is modelled up to its sleep: one pass over the satellites
    for fetch_and_save_data, one queue poll for worker.  The interleaving of
    the two coroutines, the passing of time (sleeps, key expiry) and failures
    of the Redis connection itself are outside the model. *)

From Stdlib Require Import ZArith String Ascii List Lia Floats DecimalString.
From stdpp Require Import gmap strings list.
Import ListNotations.

Local Open Scope Z_scope.

(** ** Python values and exceptions *)

Module Py.

(** The values json.loads can produce (and json.dumps consumes). A dict is an
    association list in insertion order. *)
#[warnings="-register-all"]
Inductive value : Type :=
| VNone
| VBool (b : bool)
| VInt (n : Z)
| VFloat (x : float)
| VStr (s : string)
| VList (l : list value)
| VDict (d : list (string * value)).

(** The exception classes that can arise in the module. *)
Inductive exn : Type :=
| IndexError
| KeyError
| TypeError
| ValueError
| OverflowError
| AttributeError
| JSONDecodeError
| ClientError
| OperationalError.

Inductive res (A : Type) : Type :=
| Ok (a : A)
| Raise (e : exn).
Arguments Ok {A} a.
Arguments Raise {A} e.

Definition res_bind {A B} (r : res A) (k : A -> res B) : res B :=
  match r with
  | Ok a => k a
  | Raise e => Raise e
  end.

(** Truth value testing: None, False, zero, and empty containers are false. *)
Definition truthy (v : value) : bool :=
  match v with
  | VNone => false
  | VBool b => b
  | VInt n => negb (n =? 0)
  | VFloat x => negb (PrimFloat.eqb x 0%float)
  | VStr s => negb (String.eqb s "")
  | VList l => match l with [] => false | _ => true end
  | VDict d => match d with [] => false | _ => true end
  end.

(** [d[k]] on a dict held as an association list. *)
Fixpoint assoc (k : string) (d : list (string * value)) : option value :=
  match d with
  | [] => None
  | (k', v) :: d' => if String.eqb k k' then Some v else assoc k d'
  end.

(** [v[k]] with a string key [k]: KeyError on a dict without the key,
    TypeError on every other value (a list or a string wants integer
    indices, the rest is not subscriptable). *)
Definition getitem (v : value) (k : string) : res value :=
  match v with
  | VDict d => match assoc k d with Some x => Ok x | None => Raise KeyError end
  | _ => Raise TypeError
  end.

(** [v.get(k)]: only a dict has the method. *)
Definition get (v : value) (k : string) : res value :=
  match v with
  | VDict d => match assoc k d with Some x => Ok x | None => Ok VNone end
  | _ => Raise AttributeError
  end.

(** [float(n)] for an int: round to nearest even, OverflowError when the
    magnitude exceeds the binary64 range. *)
Definition float_of_Z (n : Z) : res float :=
  match binary_normalize prec emax n 0 false with
  | S754_infinity _ => Raise OverflowError
  | sf => Ok (SF2Prim sf)
  end.

(** The left operand of [v + x] and [v - x] when [x] is a float: numbers
    are converted to float, everything else is a TypeError. *)
Definition as_float (v : value) : res float :=
  match v with
  | VFloat x => Ok x
  | VInt n => float_of_Z n
  | VBool b => Ok (if b then 1%float else 0%float)
  | _ => Raise TypeError
  end.

(** [int(x)] for a float: truncation toward zero; NaN is a ValueError and an
    infinity an OverflowError. *)
Definition trunc (x : float) : res Z :=
  match Prim2SF x with
  | S754_zero _ => Ok 0
  | S754_finite s m e =>
      let a := if 0 <=? e then Z.shiftl (Z.pos m) e else Z.shiftr (Z.pos m) (- e) in
      Ok (if s then - a else a)
  | S754_infinity _ => Raise OverflowError
  | S754_nan => Raise ValueError
  end.

End Py.
Import Py.

Declare Scope res_scope.
Delimit Scope res_scope with res.
Notation "'letr' x := r 'in' k" := (res_bind r (fun x => k))
  (at level 10, x name, r at level 100, k at level 200) : res_scope.

(** ** Date conversion and geometry utilities *)

Module Util.

(** [s.split(sep)] for a one-character separator: always at least one
    segment, empty segments are kept. *)
Fixpoint split (sep : ascii) (s : string) : list string :=
  match s with
  | EmptyString => [EmptyString]
  | String c s' =>
      if Ascii.eqb c sep then EmptyString :: split sep s'
      else match split sep s' with
           | h :: t => String c h :: t
           | [] => [String c EmptyString]
           end
  end.

(** Number of occurrences of a character. *)
Fixpoint count_char (c : ascii) (s : string) : nat :=
  match s with
  | EmptyString => 0%nat
  | String c' s' => ((if Ascii.eqb c' c then 1 else 0) + count_char c s')%nat
  end.

Definition slash : ascii := "/"%char.

Definition extra_part : string := "T00:00:00Z".

(** [dates[i]]: IndexError past the end. *)
Definition index (l : list string) (i : nat) : res string :=
  match nth_error l i with
  | Some x => Ok x
  | None => Raise IndexError
  end.

Definition convert_to_rfc3339 (date_str : string) : res string :=
  (let dates := split slash date_str in
   letr d0 := index dates 0 in
   letr d1 := index dates 1 in
   Ok (d0 ++ extra_part ++ "/" ++ d1 ++ extra_part)%string)%res.

Definition pair_ (a b : float) : value := VList [VFloat a; VFloat b].

Definition build_square (lon lat delta : float) : value :=
  let c1 := pair_ (lon + delta) (lat + delta) in
  let c2 := pair_ (lon + delta) (lat - delta) in
  let c3 := pair_ (lon - delta) (lat - delta) in
  let c4 := pair_ (lon - delta) (lat + delta) in
  VDict [("type"%string, VStr "Polygon");
         ("coordinates"%string, VList [VList [c1; c2; c3; c4; c1]])].

(** The exterior ring of a polygon built by [build_square]. *)
Definition ring (geometry : value) : option (list value) :=
  match getitem geometry "coordinates" with
  | Ok (VList [VList r]) => Some r
  | _ => None
  end.

(** A calendar date in the form YYYY-MM-DD. *)
Definition is_digit (c : ascii) : bool :=
  let n := nat_of_ascii c in ((48 <=? n) && (n <=? 57))%nat.

Definition is_iso_date (s : string) : bool :=
  match list_ascii_of_string s with
  | [y1; y2; y3; y4; h1; m1; m2; h2; d1; d2] =>
      forallb is_digit [y1; y2; y3; y4; m1; m2; d1; d2]
      && Ascii.eqb h1 "-" && Ascii.eqb h2 "-"
  | _ => false
  end.

(** One side of a full range: a calendar date followed by the midnight marker. *)
Definition is_midnight_stamp (s : string) : bool :=
  is_iso_date (substring 0 10 s) && String.eqb (substring 10 (String.length s - 10) s) extra_part.

(** A well-formed full range: exactly two midnight stamps around one slash. *)
Definition well_formed_range (s : string) : bool :=
  match split slash s with
  | [a; b] => is_midnight_stamp a && is_midnight_stamp b
  | _ => false
  end.

End Util.

(** ** Naive datetimes *)

Module Datetime.

Record datetime : Type := mk_datetime {
  year : Z; month : Z; day : Z;
  hour : Z; minute : Z; second : Z; microsecond : Z }.

Definition MAXYEAR : Z := 9999.

Definition is_leap (y : Z) : bool :=
  (y mod 4 =? 0) && (negb (y mod 100 =? 0) || (y mod 400 =? 0)).

Definition days_in_month (y m : Z) : Z :=
  if m =? 2 then (if is_leap y then 29 else 28)
  else if (m =? 4) || (m =? 6) || (m =? 9) || (m =? 11) then 30
  else 31.

(** The values the datetime constructor accepts. *)
Definition valid (d : datetime) : Prop :=
  1 <= year d <= MAXYEAR /\ 1 <= month d <= 12 /\
  1 <= day d <= days_in_month (year d) (month d) /\
  0 <= hour d < 24 /\ 0 <= minute d < 60 /\ 0 <= second d < 60 /\
  0 <= microsecond d < 1000000.

(** [date + timedelta(days=1)]: the same time of day on the next calendar
    day; OverflowError past 9999-12-31. *)
Definition add_day (d : datetime) : res datetime :=
  if day d <? days_in_month (year d) (month d) then
    Ok (mk_datetime (year d) (month d) (day d + 1) (hour d) (minute d) (second d) (microsecond d))
  else if month d <? 12 then
    Ok (mk_datetime (year d) (month d + 1) 1 (hour d) (minute d) (second d) (microsecond d))
  else if year d <? MAXYEAR then
    Ok (mk_datetime (year d + 1) 1 1 (hour d) (minute d) (second d) (microsecond d))
  else Raise OverflowError.

(** Proleptic Gregorian ordinal (0001-01-01 is day 1), as [toordinal]. *)
Definition days_before_year (y : Z) : Z :=
  let p := y - 1 in p * 365 + p / 4 - p / 100 + p / 400.

Definition days_before_month (y m : Z) : Z :=
  let l := if is_leap y then 1 else 0 in
  if m <=? 1 then 0 else if m =? 2 then 31 else if m =? 3 then 59 + l
  else if m =? 4 then 90 + l else if m =? 5 then 120 + l
  else if m =? 6 then 151 + l else if m =? 7 then 181 + l
  else if m =? 8 then 212 + l else if m =? 9 then 243 + l
  else if m =? 10 then 273 + l else if m =? 11 then 304 + l
  else 334 + l.

Definition toordinal (d : datetime) : Z :=
  days_before_year (year d) + days_before_month (year d) (month d) + day d.

(** The ordinal of 9999-12-31. *)
Definition MAXORDINAL : Z := 3652059.

(** The cursor values of [n] iterations of [date += timedelta(days=1)]
    starting from [d], as long as the addition does not overflow. *)
Fixpoint cursors (n : nat) (d : datetime) : list datetime :=
  match n with
  | O => []
  | S k => match add_day d with
           | Ok d' => d' :: cursors k d'
           | Raise _ => []
           end
  end.

(** Same time of day. *)
Definition same_time (a b : datetime) : Prop :=
  hour a = hour b /\ minute a = minute b /\ second a = second b /\
  microsecond a = microsecond b.

(** Same calendar day. *)
Definition same_day (a b : datetime) : Prop :=
  year a = year b /\ month a = month b /\ day a = day b.

(** The date and time of day to the second, as one number that grows with
    time: YYYYMMDDHHMMSS read in base ten. *)
Definition stamp (d : datetime) : Z :=
  ((((year d * 100 + month d) * 100 + day d) * 100 + hour d) * 100 + minute d) * 100
  + second d.

(** Two- and four-digit decimal fields, zero-padded. *)
Definition digit (n : Z) : ascii := ascii_of_nat (48 + Z.to_nat (n mod 10)).

Definition pad2 (n : Z) : string :=
  String (digit (n / 10)) (String (digit n) EmptyString).

Definition pad4 (n : Z) : string :=
  String (digit (n / 1000)) (String (digit (n / 100))
    (String (digit (n / 10)) (String (digit n) EmptyString))).

(** The field %Y of strftime as the C library prints it: the year in
    decimal with no padding, so three digits for the year 999 (years 1 to
    9999). *)
Definition year_text (y : Z) : string :=
  if y <? 10 then String (digit y) EmptyString
  else if y <? 100 then pad2 y
  else if y <? 1000 then String (digit (y / 100)) (pad2 y)
  else pad4 y.

(** [d.strftime("%Y-%m-%d")] *)
Definition strftime_date (d : datetime) : string :=
  (year_text (year d) ++ "-" ++ pad2 (month d) ++ "-" ++ pad2 (day d))%string.

(** [d.strftime("%Y-%m-%dT00:00:00Z")] *)
Definition strftime_midnight (d : datetime) : string :=
  (strftime_date d ++ "T00:00:00Z")%string.

(** [d.strftime("%Y-%m-%d %H:%M:%S")] *)
Definition strftime_seconds (d : datetime) : string :=
  (strftime_date d ++ " " ++ pad2 (hour d) ++ ":" ++ pad2 (minute d) ++ ":" ++ pad2 (second d))%string.

End Datetime.
Import Datetime.

(** ** The shared stores and the effect monad *)

Module World.

(** What the module writes to the log, by call site. *)
Inductive log_event : Type :=
| ErrLastDate (satellite : string) (e : exn)
| InfoSaved (satellite needed_date : string)
| InfoNoData (satellite needed_date : string)
| ErrStatus (status : Z) (satellite date_str : string)
| ErrRequest (satellite : string) (e : exn)
| InfoSavedDb (satellite date_ : string)
| ErrSaveDb (satellite : string) (e : exn)
| ErrStac (status : Z)
| ErrRetrieve (lon lat : value) (e : exn)
| InfoProcessed (request_id : value)
| ErrQueue (e : exn).

(** Query parameters of one GET to the acquisition-plan API. *)
Record get_params : Type := mk_params {
  p_api_key : string; p_satellites : string; p_datetime : string }.

(** Modelled from the spec: the declaration of the table
    api_acqusitiondatesinfo is not among the sources.  A progress record is
    the pair (satellite, has_info_date), the date held as the text that
    save_to_db inserts and get_the_last_date hands to strptime. *)
Definition progress_record : Type := (string * string)%type.

(** [kv]: the Redis string keys, each with the [ex] it was set with (seconds).
    [request_queue]: the Redis list of that name, front first.
    [table]: the rows (satellite, has_info_date) of api_acqusitiondatesinfo,
    oldest first.  [sent]: the GET requests issued, latest first.
    [logs]: the log, latest first. *)
Record world : Type := mk_world {
  kv : gmap string (string * Z);
  request_queue : list string;
  table : list progress_record;
  sent : list get_params;
  logs : list log_event }.

Definition M (A : Type) : Type := world -> res A * world.

Definition ret {A} (a : A) : M A := fun w => (Ok a, w).

Definition bind {A B} (m : M A) (k : A -> M B) : M B :=
  fun w => match m w with
           | (Ok a, w') => k a w'
           | (Raise e, w') => (Raise e, w')
           end.

Definition lift {A} (r : res A) : M A := fun w => (r, w).

(** [try: body except Exception as e: handler e]; what [body] did to the
    stores before it raised stays done. *)
Definition try_except {A} (body : M A) (handler : exn -> M A) : M A :=
  fun w => match body w with
           | (Ok a, w') => (Ok a, w')
           | (Raise e, w') => handler e w'
           end.

(** The elementary changes of the world. *)
Definition logged (ev : log_event) (w : world) : world :=
  mk_world (kv w) (request_queue w) (table w) (sent w) (ev :: logs w).

Definition stored (key val : string) (ex : Z) (w : world) : world :=
  mk_world (<[key := (val, ex)]> (kv w)) (request_queue w) (table w) (sent w) (logs w).

Definition popped (w : world) : world :=
  mk_world (kv w) (tl (request_queue w)) (table w) (sent w) (logs w).

Definition appended (satellite date_ : string) (w : world) : world :=
  mk_world (kv w) (request_queue w) (table w ++ [(satellite, date_)]) (sent w) (logs w).

Definition requested (p : get_params) (w : world) : world :=
  mk_world (kv w) (request_queue w) (table w) (p :: sent w) (logs w).

Definition logging (ev : log_event) : M unit := fun w => (Ok tt, logged ev w).

(** [await redis.set(key, val, ex=ex)] *)
Definition redis_set (key val : string) (ex : Z) : M unit :=
  fun w => (Ok tt, stored key val ex w).

(** [await redis.lpop('request_queue')] *)
Definition redis_lpop : M (option string) :=
  fun w => match request_queue w with
           | [] => (Ok None, w)
           | x :: _ => (Ok (Some x), popped w)
           end.

(** [INSERT INTO api_acqusitiondatesinfo (satellite, has_info_date)] *)
Definition insert_row (satellite date_ : string) : M unit :=
  fun w => (Ok tt, appended satellite date_ w).

(** A GET request goes out. *)
Definition record_get (p : get_params) : M unit := fun w => (Ok tt, requested p w).

Definition read_table : M (list progress_record) := fun w => (Ok (table w), w).

End World.
Import World.

Declare Scope M_scope.
Delimit Scope M_scope with M.
Notation "'letm' x := c 'in' k" := (bind c (fun x => k))
  (at level 10, x name, c at level 100, k at level 200) : M_scope.
Notation "c ';;' k" := (bind c (fun _ => k))
  (at level 100, k at level 200, right associativity) : M_scope.

(** ** The environment of one run *)

(** What an HTTP call comes to: the call itself raises, or a response
    arrives, whose [await response.json()] yields a value or raises. *)
Inductive http_outcome : Type :=
| Failed (e : exn)
| Response (status : Z) (body : res value).

(** The two statements sent to the progress store. *)
Inductive db_op : Type :=
| SelectLast (satellite : string)
| InsertRow (satellite date_ : string).

(** Library behaviour the module passes on unchanged, and the outside world
    during one sweep of the scheduler or one tick of the worker.
    [now] is the clock reading when the sweep reaches the given satellite;
    [db_ok] tells whether the connection and the statement succeed. *)
Record env : Type := mk_env {
  json_loads : string -> res value;
  json_dumps : value -> string;
  int_of_str : string -> res Z;
  str_of : value -> string;
  strptime : string -> res datetime;
  now : string -> datetime;
  API_KEY : string;
  http_get : get_params -> http_outcome;
  http_post : value -> http_outcome;
  db_ok : db_op -> res unit }.

(** ** The acquisition scheduler *)

Module Scheduler.

Definition SATELLITES : list string := ["Landsat-8"; "Landsat-9"]%string.

(** [ORDER BY has_info_date DESC LIMIT 1] over the stored texts, compared
    character by character; on the fixed-width form that save_to_db writes
    this is the order of the dates. *)
Fixpoint newest (dates : list string) : option string :=
  match dates with
  | [] => None
  | d :: ds =>
      match newest ds with
      | None => Some d
      | Some m => if String.leb d m then Some m else Some d
      end
  end.

(** [WHERE satellite = %s] *)
Definition dates_of (satellite : string) (rows : list progress_record) : list string :=
  map snd (List.filter (fun r => String.eqb (fst r) satellite) rows).

Definition get_the_last_date (E : env) (satellite : string) : M (option string) :=
  try_except
    (lift (db_ok E (SelectLast satellite)) ;;
     letm rows := read_table in
     ret (newest (dates_of satellite rows)))%M
    (fun e => logging (ErrLastDate satellite e) ;; ret None)%M.

Definition save_to_db (E : env) (features : value) (date : datetime) (satellite : string) : M unit :=
  try_except
    (let date_ := strftime_seconds date in
     lift (db_ok E (InsertRow satellite date_)) ;;
     insert_row satellite date_ ;;
     logging (InfoSavedDb satellite date_))%M
    (fun e => logging (ErrSaveDb satellite e))%M.

(** The body of the inner loop after the cursor has been advanced. *)
Definition probe (E : env) (satellite : string) (date : datetime) : M unit :=
  let date_str := strftime_midnight date in
  let needed_date := strftime_date date in
  let params := mk_params (API_KEY E) satellite date_str in
  try_except
    (record_get params ;;
     match http_get E params with
     | Failed e => lift (Raise e)
     | Response status body =>
         if status =? 200 then
           letm data := lift body in
           letm found := lift (get data "features") in
           if truthy found then
             letm features := lift (getitem data "features") in
             save_to_db E features date satellite ;;
             redis_set needed_date (json_dumps E features) (604800 * 3) ;;
             logging (InfoSaved satellite needed_date)
           else logging (InfoNoData satellite needed_date)
         else logging (ErrStatus status satellite date_str)
     end)%M
    (fun e => logging (ErrRequest satellite e)).

(** [for _ in range(n)]: advance the cursor, then probe. *)
Fixpoint window (E : env) (n : nat) (satellite : string) (date : datetime) : M unit :=
  match n with
  | O => ret tt
  | S k =>
      (letm date' := lift (add_day date) in
       probe E satellite date' ;;
       window E k satellite date')%M
  end.

(** The starting cursor of a satellite. *)
Definition start_date (E : env) (satellite : string) : M datetime :=
  (letm date := get_the_last_date E satellite in
   match date with
   | None => ret (now E satellite)
   | Some s => if String.eqb s "" then ret (now E satellite) else lift (strptime E s)
   end)%M.

Definition sweep_satellite (E : env) (satellite : string) : M unit :=
  (letm date := start_date E satellite in window E 100 satellite date)%M.

Fixpoint for_each (l : list string) (body : string -> M unit) : M unit :=
  match l with
  | [] => ret tt
  | x :: l' => (body x ;; for_each l' body)%M
  end.

(** One pass of the [while True] body of fetch_and_save_data, up to the sleep. *)
Definition fetch_and_save_data_cycle (E : env) : M unit :=
  for_each SATELLITES (sweep_satellite E).

(** The cursor a satellite's window starts from, read off the world at
    the beginning: the clock when the read fails or finds no date (or an
    empty one), the parsed newest date otherwise. *)
Definition starting_cursor (E : env) (w : world) (satellite : string) : res datetime :=
  match db_ok E (SelectLast satellite) with
  | Raise _ => Ok (now E satellite)
  | Ok _ =>
      match newest (dates_of satellite (table w)) with
      | None => Ok (now E satellite)
      | Some s => if String.eqb s "" then Ok (now E satellite) else strptime E s
      end
  end.

(** The request a probe of the given cursor value issues. *)
Definition params_of (E : env) (satellite : string) (c : datetime) : get_params :=
  mk_params (API_KEY E) satellite (strftime_midnight c).

(** The [datetime] parameters of the GET requests issued so far for a
    satellite, oldest first. *)
Definition probes_of (satellite : string) (w : world) : list string :=
  map p_datetime (List.filter (fun p => String.eqb (p_satellites p) satellite) (rev (sent w))).

(** 21 days in seconds. *)
Definition feature_ttl : Z := 1814400.

(** Whether the GET with these parameters comes back 200 with a truthy
    features entry, the one case in which a probe stores anything. *)
Definition finds_features (E : env) (p : get_params) : bool :=
  match http_get E p with
  | Response status (Ok data) =>
      (status =? 200) &&
      match get data "features" with
      | Ok found => truthy found
      | Raise _ => false
      end
  | _ => false
  end.

(** The error a probe logs when the GET fails, the status is not 200, the
    body cannot be decoded, or the decoded body is not an object; [None]
    when the probe gets as far as looking at the features. *)
Definition probe_error (E : env) (satellite : string) (date : datetime) : option log_event :=
  match http_get E (params_of E satellite date) with
  | Failed e => Some (ErrRequest satellite e)
  | Response status body =>
      if status =? 200 then
        match body with
        | Raise e => Some (ErrRequest satellite e)
        | Ok data =>
            match get data "features" with
            | Raise e => Some (ErrRequest satellite e)
            | Ok _ => None
            end
        end
      else Some (ErrStatus status satellite (strftime_midnight date))
  end.

(** [w'] is [w] after some work of the scheduler on the satellites [sats]:
    the queue is as it was, the table has at most [n] more rows at its end,
    all of them for satellites in [sats], a cache key that is not the
    %Y-%m-%d text of a date keeps its entry, and every cache entry is an old
    one or sits under the %Y-%m-%d text of a date with the 21-day expiry. *)
Definition grown (sats : list string) (n : nat) (w w' : world) : Prop :=
  request_queue w' = request_queue w /\
  (exists new, table w' = table w ++ new /\ (length new <= n)%nat /\
               Forall (fun r => In (fst r) sats) new) /\
  (forall k, (forall c, k <> strftime_date c) -> kv w' !! k = kv w !! k) /\
  (forall k v, kv w' !! k = Some v ->
     kv w !! k = Some v \/ ((exists c, k = strftime_date c) /\ snd v = feature_ttl)).

(** The latest record of a satellite, read off the rows themselves: a row
    of the satellite whose date no other row of the satellite exceeds. *)
Definition latest_record (w : world) (satellite D : string) : Prop :=
  In (satellite, D) (table w) /\
  forall x, In (satellite, x) (table w) -> String.le x D.

(** The satellite has no row in the progress table. *)
Definition no_record (w : world) (satellite : string) : Prop :=
  forall x, ~ In (satellite, x) (table w).

(** The moment a satellite's sweep resumes from when the read succeeds: the
    parsed latest record when there is one, the clock reading when there is
    none. *)
Inductive resumes (E : env) (w : world) (satellite : string) (d : datetime) : Prop :=
| resumes_from_record (D : string) :
    latest_record w satellite D -> D <> EmptyString -> strptime E D = Ok d ->
    resumes E w satellite d
| resumes_from_clock :
    no_record w satellite -> d = now E satellite -> resumes E w satellite d.

End Scheduler.

(** ** The request-queue worker *)

Module Worker.

(** The literal 0.004, that is, the binary64 number nearest to it. *)
Definition stac_delta : float := 0x1.0624dd2f1a9fcp-8%float.

Definition not_found : value := VDict [("message"%string, VStr "not found")].

(** [int(v)] *)
Definition py_int (E : env) (v : value) : res Z :=
  match v with
  | VInt n => Ok n
  | VBool b => Ok (if b then 1 else 0)
  | VFloat x => trunc x
  | VStr s => int_of_str E s
  | _ => Raise TypeError
  end.

(** [{v}] inside an f-string. *)
Definition format_value (E : env) (v : value) : string :=
  match v with
  | VStr s => s
  | _ => str_of E v
  end.

Definition result_key (E : env) (request_id : value) : string :=
  ("result:" ++ format_value E request_id)%string.

(** [build_square(lon, lat, delta)] on decoded JSON operands. *)
Definition build_square_of (lon lat : value) (delta : float) : res value :=
  (letr x := as_float lon in
   letr y := as_float lat in
   Ok (Util.build_square x y delta))%res.

(** [convert_to_rfc3339(time_range)]: only a str has [split]. *)
Definition convert_of (time_range : value) : res string :=
  match time_range with
  | VStr s => Util.convert_to_rfc3339 s
  | _ => Raise AttributeError
  end.

Definition payload_of (geometry : value) (datetime_ : string) (min_cloud max_cloud : Z) : value :=
  VDict [("intersects"%string, geometry);
         ("datetime"%string, VStr datetime_);
         ("query"%string,
           VDict [("eo:cloud_cover"%string,
                    VDict [("gte"%string, VInt min_cloud); ("lte"%string, VInt max_cloud)])]);
         ("collections"%string, VList [VStr "landsat-c2l2-sr"])].

(** The request body of the catalog search; it is built before the [try]
    of get_landsat_items, so what it raises reaches the caller. *)
Definition search_payload (lon lat time_range : value) (min_cloud max_cloud : Z) : res value :=
  (letr geometry := build_square_of lon lat stac_delta in
   letr datetime_ := convert_of time_range in
   Ok (payload_of geometry datetime_ min_cloud max_cloud))%res.

Definition get_landsat_items (E : env) (lon lat time_range : value) (min_cloud max_cloud : Z) : M value :=
  (letm payload := lift (search_payload lon lat time_range min_cloud max_cloud) in
   try_except
     (match http_post E payload with
      | Failed e => lift (Raise e)
      | Response status body =>
          if status =? 200 then
            letm data := lift body in
            letm found := lift (getitem data "features") in
            if truthy found then lift (getitem data "features") else ret not_found
          else (logging (ErrStac status) ;; ret VNone)
      end)
     (fun e => logging (ErrRetrieve lon lat e) ;; ret VNone))%M.

(** The local variables read from one queue entry. *)
Record request : Type := mk_request {
  request_id : value; lon : value; lat : value;
  min_cloud : Z; max_cloud : Z; time_range : value }.

(** json.loads and the six field reads, in the order of the source. *)
Definition decode (E : env) (request_data : string) : res request :=
  (letr request := json_loads E request_data in
   letr request_id := getitem request "request_id" in
   letr lon := getitem request "lon" in
   letr lat := getitem request "lat" in
   letr min_v := getitem request "min_cloud" in
   letr min_cloud := py_int E min_v in
   letr max_v := getitem request "max_cloud" in
   letr max_cloud := py_int E max_v in
   letr time_range := getitem request "time_range" in
   Ok (mk_request request_id lon lat min_cloud max_cloud time_range))%res.

(** One pass of the [while True] body of worker, up to the sleep. *)
Definition worker_iteration (E : env) : M unit :=
  try_except
    (letm request_data := redis_lpop in
     match request_data with
     | None => ret tt
     | Some raw =>
         if String.eqb raw "" then ret tt
         else
           letm r := lift (decode E raw) in
           letm items := get_landsat_items E (lon r) (lat r) (time_range r)
                                           (min_cloud r) (max_cloud r) in
           redis_set (result_key E (request_id r)) (json_dumps E items) 120 ;;
           logging (InfoProcessed (request_id r))
     end)%M
    (fun e => logging (ErrQueue e)).

(** The fields a queue entry must carry. *)
Definition required_fields : list string :=
  ["request_id"; "lon"; "lat"; "min_cloud"; "max_cloud"; "time_range"]%string.

(** A queue entry that cannot be processed: its text is not JSON, or a
    required field is missing from the decoded object, or a cloud-cover
    bound is not convertible by int(). *)
Inductive unprocessable (E : env) (raw : string) : Prop :=
| invalid_json (e : exn) :
    json_loads E raw = Raise e -> unprocessable E raw
| missing_field (d : list (string * value)) (k : string) :
    json_loads E raw = Ok (VDict d) -> In k required_fields -> assoc k d = None ->
    unprocessable E raw
| bad_cloud_bound (d : list (string * value)) (k : string) (v : value) (e : exn) :
    json_loads E raw = Ok (VDict d) -> In k ["min_cloud"; "max_cloud"]%string ->
    assoc k d = Some v -> py_int E v = Raise e ->
    unprocessable E raw.

(** What get_landsat_items returns on a 200 answer, by its body: the
    features when the body has a truthy features entry, the not-found marker
    when the entry is there and falsy, None when the body cannot be decoded
    or has no such entry (the except branch). *)
Definition returned_on_200 (body : res value) : value :=
  match body with
  | Raise _ => VNone
  | Ok data =>
      match getitem data "features" with
      | Raise _ => VNone
      | Ok found => if truthy found then found else not_found
      end
  end.

(** [n] passes of the loop of worker, the sleeps left out. *)
Fixpoint worker_ticks (E : env) (n : nat) : M unit :=
  match n with
  | O => ret tt
  | S k => (worker_iteration E ;; worker_ticks E k)%M
  end.

(** A decoded request for which no search payload can be built: a
    coordinate that is not a number (or an int beyond the float range), a
    time range that is not text, or one without a '/'. *)
Inductive unbuildable (r : request) : Prop :=
| bad_lon (e : exn) : as_float (lon r) = Raise e -> unbuildable r
| bad_lat (e : exn) : as_float (lat r) = Raise e -> unbuildable r
| range_not_text : (forall s, time_range r <> VStr s) -> unbuildable r
| range_without_slash (s : string) :
    time_range r = VStr s -> Util.count_char Util.slash s = 0%nat -> unbuildable r.

(** What get_landsat_items logs when the search ends in a network failure
    or a status other than 200; [None] on a 200. *)
Definition failure_log (r : request) (o : http_outcome) : option log_event :=
  match o with
  | Failed e => Some (ErrRetrieve (lon r) (lat r) e)
  | Response status _ => if status =? 200 then None else Some (ErrStac status)
  end.

End Worker.

(** ** A concrete environment for the examples *)

Module Demo.

Definition dq : string := String (ascii_of_nat 34) EmptyString.

Definition quoted (s : string) : string := (dq ++ s ++ dq)%string.

Definition decimal (n : Z) : string := NilZero.string_of_int (Z.to_int n).

Fixpoint join (sep : string) (l : list string) : string :=
  match l with
  | [] => EmptyString
  | [x] => x
  | x :: l' => (x ++ sep ++ join sep l')%string
  end.

(** json.dumps on the values of the examples: None, booleans, ints, plain
    ASCII strings, and lists and dicts of these.  (A float is not printed
    by this table; the examples never serialise one.) *)
Fixpoint dumps (v : value) : string :=
  match v with
  | VNone => "null"
  | VBool b => if b then "true" else "false"
  | VInt n => decimal n
  | VFloat _ => "NaN"
  | VStr s => quoted s
  | VList l => ("[" ++ join ", " (map dumps l) ++ "]")%string
  | VDict d =>
      ("{" ++ join ", " (map (fun kv => (quoted (fst kv) ++ ": " ++ dumps (snd kv))%string) d) ++ "}")%string
  end.

(** The request of the end-to-end scenario and its text on the queue. *)
Definition request_abc : value :=
  VDict [("request_id"%string, VStr "abc"); ("lon"%string, VFloat 10);
         ("lat"%string, VFloat 20); ("min_cloud"%string, VInt 0);
         ("max_cloud"%string, VInt 50);
         ("time_range"%string, VStr "2024-01-01/2024-01-02")].

Definition raw_abc : string :=
  ("{" ++ quoted "request_id" ++ ": " ++ quoted "abc" ++ ", "
       ++ quoted "lon" ++ ": 10.0, " ++ quoted "lat" ++ ": 20.0, "
       ++ quoted "min_cloud" ++ ": 0, " ++ quoted "max_cloud" ++ ": 50, "
       ++ quoted "time_range" ++ ": " ++ quoted "2024-01-01/2024-01-02" ++ "}")%string.

(** A request without the time_range field. *)
Definition request_short : value :=
  VDict [("request_id"%string, VStr "abc"); ("lon"%string, VFloat 10);
         ("lat"%string, VFloat 20); ("min_cloud"%string, VInt 0);
         ("max_cloud"%string, VInt 50)].

Definition raw_short : string :=
  ("{" ++ quoted "request_id" ++ ": " ++ quoted "abc" ++ ", "
       ++ quoted "lon" ++ ": 10.0, " ++ quoted "lat" ++ ": 20.0, "
       ++ quoted "min_cloud" ++ ": 0, " ++ quoted "max_cloud" ++ ": 50}")%string.

(** A request whose lower cloud bound is the text "low". *)
Definition request_low : value :=
  VDict [("request_id"%string, VStr "abc"); ("lon"%string, VFloat 10);
         ("lat"%string, VFloat 20); ("min_cloud"%string, VStr "low");
         ("max_cloud"%string, VInt 50);
         ("time_range"%string, VStr "2024-01-01/2024-01-02")].

Definition raw_low : string :=
  ("{" ++ quoted "request_id" ++ ": " ++ quoted "abc" ++ ", "
       ++ quoted "lon" ++ ": 10.0, " ++ quoted "lat" ++ ": 20.0, "
       ++ quoted "min_cloud" ++ ": " ++ quoted "low" ++ ", " ++ quoted "max_cloud" ++ ": 50, "
       ++ quoted "time_range" ++ ": " ++ quoted "2024-01-01/2024-01-02" ++ "}")%string.

(** json.loads on the three texts above; every other text of the examples
    ("{not json") is not JSON. *)
Definition loads (s : string) : res value :=
  if String.eqb s raw_abc then Ok request_abc
  else if String.eqb s raw_short then Ok request_short
  else if String.eqb s raw_low then Ok request_low
  else Raise JSONDecodeError.

(** int() on a text of decimal digits; the other texts of the examples
    ("low") are not integer literals. *)
Definition int_of_digits (s : string) : res Z :=
  match s with
  | EmptyString => Raise ValueError
  | _ => if forallb Util.is_digit (list_ascii_of_string s)
         then match NilZero.int_of_string s with
              | Some d => Ok (Z.of_int d)
              | None => Raise ValueError
              end
         else Raise ValueError
  end.

(** str() of a value that is not a str. *)
Definition str_value (v : value) : string :=
  match v with
  | VNone => "None"
  | VBool b => if b then "True" else "False"
  | _ => dumps v
  end.

Definition digit_value (c : ascii) : option Z :=
  if Util.is_digit c then Some (Z.of_nat (nat_of_ascii c) - 48) else None.

Fixpoint number (cs : list ascii) (acc : Z) : option Z :=
  match cs with
  | [] => Some acc
  | c :: cs' => match digit_value c with
                | Some v => number cs' (acc * 10 + v)
                | None => None
                end
  end.

Definition in_range (lo hi x : Z) : bool := (lo <=? x) && (x <=? hi).

(** strptime(s, "%Y-%m-%d %H:%M:%S") on the fully zero-padded 19-character
    form; the other texts of the examples ("garbage") do not match. *)
Definition strptime_padded (s : string) : res datetime :=
  match list_ascii_of_string s with
  | [y1; y2; y3; y4; h1; m1; m2; h2; d1; d2; sp; H1; H2; c1; M1; M2; c2; S1; S2] =>
      match number [y1; y2; y3; y4] 0, number [m1; m2] 0, number [d1; d2] 0,
            number [H1; H2] 0, number [M1; M2] 0, number [S1; S2] 0 with
      | Some y, Some m, Some d, Some hh, Some mm, Some ss =>
          if Ascii.eqb h1 "-" && Ascii.eqb h2 "-" && Ascii.eqb sp " "
             && Ascii.eqb c1 ":" && Ascii.eqb c2 ":"
             && in_range 1 9999 y && in_range 1 12 m
             && in_range 1 (days_in_month y m) d
             && in_range 0 23 hh && in_range 0 59 mm && in_range 0 59 ss
          then Ok (mk_datetime y m d hh mm ss 0)
          else Raise ValueError
      | _, _, _, _, _, _ => Raise ValueError
      end
  | _ => Raise ValueError
  end.

Definition clock : datetime := mk_datetime 2024 3 4 11 22 33 0.

Definition demo (get_ : get_params -> http_outcome) (post : value -> http_outcome)
    (db : db_op -> res unit) : env :=
  mk_env loads dumps int_of_digits str_value strptime_padded (fun _ => clock)
         "KEY" get_ post db.

Definition f1 : value := VDict [("id"%string, VStr "f1")].

Definition features_body (l : list value) : res value :=
  Ok (VDict [("type"%string, VStr "FeatureCollection"); ("features"%string, VList l)]).

(** The acquisition-plan API of the end-to-end scenario: one feature for
    Landsat-8 on 2024-03-05, nothing elsewhere. *)
Definition plan_api (p : get_params) : http_outcome :=
  if String.eqb (p_satellites p) "Landsat-8" && String.eqb (p_datetime p) "2024-03-05T00:00:00Z"
  then Response 200 (features_body [f1])
  else Response 200 (features_body []).


Definition db_up (_ : db_op) : res unit := Ok tt.

Definition db_down (_ : db_op) : res unit := Raise OperationalError.

Definition empty_world : world := mk_world ∅ [] [] [] [].

Definition queued (raw : string) : world := mk_world ∅ [raw] [] [] [].

Definition with_rows (rows : list progress_record) : world := mk_world ∅ [] rows [] [].

End Demo.

(** * Properties *)

(** ** Splitting and joining text *)

Section SplitFacts.

Import Util.
Variable sep : ascii.

Lemma count_char_app (a b : string) :
  count_char sep (a ++ b)%string = (count_char sep a + count_char sep b)%nat.
Proof.
  induction a as [|c a IH]; simpl; [reflexivity|].
  rewrite IH. lia.
Qed.

Lemma split_nonempty (s : string) : split sep s <> [].
Proof.
  induction s as [|c s IH]; simpl; [discriminate|].
  destruct (Ascii.eqb c sep); [discriminate|].
  destruct (split sep s); discriminate.
Qed.

Lemma split_length (s : string) :
  length (split sep s) = S (count_char sep s).
Proof.
  induction s as [|c s IH]; simpl; [reflexivity|].
  destruct (Ascii.eqb c sep); simpl; [now rewrite IH|].
  destruct (split sep s) as [|h t] eqn:Hs; simpl in *; [discriminate|exact IH].
Qed.

Lemma split_no_sep (a : string) :
  count_char sep a = 0%nat -> split sep a = [a].
Proof.
  induction a as [|c a IH]; simpl; [reflexivity|].
  destruct (Ascii.eqb c sep); simpl; [discriminate|].
  intros H. rewrite (IH H). reflexivity.
Qed.

Lemma split_app (a b : string) :
  count_char sep a = 0%nat ->
  split sep (a ++ String sep b)%string = a :: split sep b.
Proof.
  induction a as [|c a IH]; simpl.
  - intros _. rewrite Ascii.eqb_refl. reflexivity.
  - destruct (Ascii.eqb c sep); simpl; [discriminate|].
    intros H. rewrite (IH H). reflexivity.
Qed.

Lemma split_segments (s : string) :
  Forall (fun x => count_char sep x = 0%nat) (split sep s).
Proof.
  induction s as [|c s IH]; simpl.
  - constructor; [reflexivity|constructor].
  - destruct (Ascii.eqb c sep) eqn:Hc.
    + constructor; [reflexivity|exact IH].
    + destruct (split sep s) as [|h t]; inversion IH; subst;
        constructor; simpl; rewrite ?Hc; auto.
Qed.

(** A text with a separator falls into the part before the first one and
    the rest. *)
Lemma first_sep (s : string) :
  (1 <= count_char sep s)%nat ->
  exists a r, s = (a ++ String sep r)%string /\ count_char sep a = 0%nat /\
              count_char sep s = S (count_char sep r).
Proof.
  induction s as [|c s IH]; simpl; [lia|].
  destruct (Ascii.eqb c sep) eqn:Hc.
  - intros _. apply Ascii.eqb_eq in Hc. subst c.
    exists EmptyString, s. simpl. auto.
  - simpl. intros H. destruct (IH H) as (a & r & -> & Ha & Hr).
    exists (String c a), r. simpl. rewrite Hc. simpl. auto.
Qed.

End SplitFacts.

(** ** Date conversion and geometry *)

Module UtilFacts.

Import Util.

Lemma append_assoc (a b c : string) : ((a ++ b) ++ c = a ++ b ++ c)%string.
Proof.
  induction a as [|x a IH]; [reflexivity|].
  change (String x ((a ++ b) ++ c) = String x (a ++ b ++ c))%string.
  now rewrite IH.
Qed.

Lemma stamp_of_empty : is_midnight_stamp (EmptyString ++ extra_part)%string = false.
Proof. reflexivity. Qed.

(** The output on two segments splits back into the two stamped segments. *)
Lemma split_of_range (d0 d1 : string) :
  count_char slash d0 = 0%nat -> count_char slash d1 = 0%nat ->
  split slash (d0 ++ extra_part ++ "/" ++ d1 ++ extra_part)%string
  = [(d0 ++ extra_part)%string; (d1 ++ extra_part)%string].
Proof.
  intros H0 H1.
  assert (Hx : count_char slash extra_part = 0%nat) by reflexivity.
  replace (d0 ++ extra_part ++ "/" ++ d1 ++ extra_part)%string
    with ((d0 ++ extra_part) ++ String slash (d1 ++ extra_part))%string.
  - rewrite split_app by (rewrite count_char_app; lia).
    rewrite split_no_sep by (rewrite count_char_app; lia).
    reflexivity.
  - rewrite append_assoc. reflexivity.
Qed.

(** C7: for every lon, lat and delta, build_square returns the polygon
    whose single ring holds exactly 5 coordinate pairs, the first equal to
    the last, with the corners [lon+delta, lat+delta], [lon+delta, lat-delta],
    [lon-delta, lat-delta], [lon-delta, lat+delta] in that order. *)
Theorem build_square_ring (lon lat delta : float) :
  build_square lon lat delta =
    VDict [("type"%string, VStr "Polygon");
           ("coordinates"%string,
             VList [VList [VList [VFloat (lon + delta); VFloat (lat + delta)];
                           VList [VFloat (lon + delta); VFloat (lat - delta)];
                           VList [VFloat (lon - delta); VFloat (lat - delta)];
                           VList [VFloat (lon - delta); VFloat (lat + delta)];
                           VList [VFloat (lon + delta); VFloat (lat + delta)]]])] /\
  exists r,
    ring (build_square lon lat delta) = Some r /\
    length r = 5%nat /\
    nth_error r 0 = nth_error r 4 /\
    r = [VList [VFloat (lon + delta); VFloat (lat + delta)];
         VList [VFloat (lon + delta); VFloat (lat - delta)];
         VList [VFloat (lon - delta); VFloat (lat - delta)];
         VList [VFloat (lon - delta); VFloat (lat + delta)];
         VList [VFloat (lon + delta); VFloat (lat + delta)]].
Proof.
  split; [reflexivity|].
  eexists. repeat split; reflexivity.
Qed.

(** The square of half-width 0.5 around (10, 20). *)
Lemma build_square_ring_witness :
  ring (build_square 10 20 0.5) =
    Some [VList [VFloat 10.5; VFloat 20.5]; VList [VFloat 10.5; VFloat 19.5];
          VList [VFloat 9.5; VFloat 19.5]; VList [VFloat 9.5; VFloat 20.5];
          VList [VFloat 10.5; VFloat 20.5]].
Proof.
  destruct (build_square_ring 10 20 0.5) as [_ (r & Hr & _ & _ & ->)].
  exact Hr.
Defined.

(** C6, as the code has it: convert_to_rfc3339 maps "2023-01-01/2023-01-31"
    to "2023-01-01T00:00:00Z/2023-01-31T00:00:00Z"; an input without '/'
    raises IndexError; an input whose first or second segment is empty
    yields a text that is not a well-formed range. *)
Theorem convert_to_rfc3339_malformed :
  convert_to_rfc3339 "2023-01-01/2023-01-31"
    = Ok "2023-01-01T00:00:00Z/2023-01-31T00:00:00Z"%string /\
  (forall s, count_char slash s = 0%nat -> convert_to_rfc3339 s = Raise IndexError) /\
  (forall s d0 d1 rest,
      split slash s = d0 :: d1 :: rest ->
      d0 = EmptyString \/ d1 = EmptyString ->
      exists out, convert_to_rfc3339 s = Ok out /\ well_formed_range out = false).
Proof.
  split; [reflexivity|]. split.
  - intros s Hs. unfold convert_to_rfc3339.
    rewrite (split_no_sep _ _ Hs). reflexivity.
  - intros s d0 d1 rest Hsplit Hempty.
    unfold convert_to_rfc3339. rewrite Hsplit. simpl.
    eexists; split; [reflexivity|].
    pose proof (split_segments slash s) as Hseg. rewrite Hsplit in Hseg.
    inversion Hseg as [|? ? H0 Hseg']; subst.
    inversion Hseg' as [|? ? H1 _]; subst.
    unfold well_formed_range.
    change (String "/" (d1 ++ extra_part)) with ("/" ++ d1 ++ extra_part)%string.
    rewrite (split_of_range d0 d1 H0 H1).
    destruct Hempty as [-> | ->]; rewrite stamp_of_empty.
    + reflexivity.
    + apply andb_false_r.
Qed.

Lemma convert_to_rfc3339_malformed_witness :
  convert_to_rfc3339 "2023-01-01" = Raise IndexError /\
  (exists out, convert_to_rfc3339 "/2023-01-31" = Ok out /\ well_formed_range out = false) /\
  (exists out, convert_to_rfc3339 "2023-01-01/" = Ok out /\ well_formed_range out = false).
Proof.
  destruct convert_to_rfc3339_malformed as (_ & Hno & Hempty).
  split; [apply Hno; reflexivity|]. split.
  - apply (Hempty "/2023-01-31"%string EmptyString "2023-01-31"%string []); [reflexivity|].
    left; reflexivity.
  - apply (Hempty "2023-01-01/"%string "2023-01-01"%string EmptyString []); [reflexivity|].
    right; reflexivity.
Defined.

(** C6, as stated, fails: "2023-01-01/2023-01-31/" has an empty segment,
    the third, and the conversion returns a well-formed range all the same. *)
Lemma empty_third_segment_well_formed :
  split slash "2023-01-01/2023-01-31/" = ["2023-01-01"; "2023-01-31"; EmptyString]%string /\
  In EmptyString (split slash "2023-01-01/2023-01-31/") /\
  convert_to_rfc3339 "2023-01-01/2023-01-31/"
    = Ok "2023-01-01T00:00:00Z/2023-01-31T00:00:00Z"%string /\
  well_formed_range "2023-01-01T00:00:00Z/2023-01-31T00:00:00Z" = true.
Proof.
  split; [reflexivity|]. split; [|split; reflexivity].
  right. right. left. reflexivity.
Qed.

(** C10: an input with two or more '/' is a/b/rest with no '/' in a or b;
    the function returns a and b, each followed by T00:00:00Z, joined by
    '/', whatever rest is, and raises nothing. *)
Theorem convert_to_rfc3339_extra_segments (s : string) :
  (2 <= count_char slash s)%nat ->
  exists a b rest,
    s = (a ++ "/" ++ b ++ "/" ++ rest)%string /\
    count_char slash a = 0%nat /\ count_char slash b = 0%nat /\
    convert_to_rfc3339 s = Ok (a ++ extra_part ++ "/" ++ b ++ extra_part)%string.
Proof.
  intros H.
  destruct (first_sep slash s) as (a & r & Hs & Ha & Hc); [lia|].
  destruct (first_sep slash r) as (b & rest & Hr & Hb & _); [lia|].
  exists a, b, rest. subst r. repeat split; auto.
  unfold convert_to_rfc3339. rewrite Hs.
  rewrite (split_app _ _ _ Ha), (split_app _ _ _ Hb). reflexivity.
Qed.

Lemma convert_to_rfc3339_extra_segments_witness :
  exists a b rest,
    "2023-01-01/2023-01-31/2023-02-28"%string = (a ++ "/" ++ b ++ "/" ++ rest)%string /\
    count_char slash a = 0%nat /\ count_char slash b = 0%nat /\
    convert_to_rfc3339 "2023-01-01/2023-01-31/2023-02-28"
      = Ok (a ++ extra_part ++ "/" ++ b ++ extra_part)%string.
Proof.
  apply (convert_to_rfc3339_extra_segments "2023-01-01/2023-01-31/2023-02-28").
  simpl. lia.
Defined.

End UtilFacts.

(** ** The request-queue worker *)

Module WorkerFacts.

Import Worker.

Section Iteration.

Variable E : env.

(** An empty queue: nothing happens. *)
Lemma worker_iteration_idle (w : world) :
  request_queue w = [] -> worker_iteration E w = (Ok tt, w).
Proof.
  intros H. unfold worker_iteration, try_except, bind, redis_lpop.
  rewrite H. reflexivity.
Qed.

(** An empty entry is taken off the queue and skipped. *)
Lemma worker_iteration_blank (w : world) (q : list string) :
  request_queue w = EmptyString :: q -> worker_iteration E w = (Ok tt, popped w).
Proof.
  intros H. unfold worker_iteration, try_except, bind, redis_lpop, popped.
  rewrite H. reflexivity.
Qed.

(** What the iteration does once an entry has been popped. *)
Lemma worker_iteration_popped (w : world) (raw : string) (q : list string) :
  request_queue w = raw :: q -> raw <> EmptyString ->
  worker_iteration E w =
    match decode E raw with
    | Raise e => (Ok tt, logged (ErrQueue e) (popped w))
    | Ok r =>
        match get_landsat_items E (lon r) (lat r) (time_range r)
                (min_cloud r) (max_cloud r) (popped w) with
        | (Raise e, w') => (Ok tt, logged (ErrQueue e) w')
        | (Ok items, w') =>
            (Ok tt, logged (InfoProcessed (request_id r))
                      (stored (result_key E (request_id r)) (json_dumps E items) 120 w'))
        end
    end.
Proof.
  intros Hq Hraw. apply String.eqb_neq in Hraw.
  unfold worker_iteration, try_except, bind, redis_lpop, popped.
  rewrite Hq. simpl. rewrite Hraw. unfold lift.
  destruct (decode E raw) as [r|e]; [|reflexivity].
  destruct (get_landsat_items _ _ _ _ _ _ _) as [[items|e] w']; reflexivity.
Qed.

(** The three outcomes of the catalog search once the payload is built. *)
Lemma get_landsat_items_failed (w : world) (r : request) (payload : value) (e : exn) :
  search_payload (lon r) (lat r) (time_range r) (min_cloud r) (max_cloud r) = Ok payload ->
  http_post E payload = Failed e ->
  get_landsat_items E (lon r) (lat r) (time_range r) (min_cloud r) (max_cloud r) w
  = (Ok VNone, logged (ErrRetrieve (lon r) (lat r) e) w).
Proof.
  intros Hp Hpost. unfold get_landsat_items, bind, lift, try_except.
  rewrite Hp, Hpost. reflexivity.
Qed.

Lemma get_landsat_items_status (w : world) (r : request) (payload : value)
    (status : Z) (body : res value) :
  search_payload (lon r) (lat r) (time_range r) (min_cloud r) (max_cloud r) = Ok payload ->
  http_post E payload = Response status body -> status <> 200 ->
  get_landsat_items E (lon r) (lat r) (time_range r) (min_cloud r) (max_cloud r) w
  = (Ok VNone, logged (ErrStac status) w).
Proof.
  intros Hp Hpost Hs. apply Z.eqb_neq in Hs.
  unfold get_landsat_items, bind, lift, try_except.
  rewrite Hp, Hpost, Hs. reflexivity.
Qed.

Lemma get_landsat_items_200 (w : world) (r : request) (payload data found : value) :
  search_payload (lon r) (lat r) (time_range r) (min_cloud r) (max_cloud r) = Ok payload ->
  http_post E payload = Response 200 (Ok data) ->
  getitem data "features" = Ok found ->
  get_landsat_items E (lon r) (lat r) (time_range r) (min_cloud r) (max_cloud r) w
  = (Ok (if truthy found then found else not_found), w).
Proof.
  intros Hp Hpost Hf.
  unfold get_landsat_items, bind, lift, try_except.
  rewrite Hp, Hpost. cbn -[getitem truthy]. rewrite Hf. cbn -[getitem truthy].
  destruct (truthy found); reflexivity.
Qed.

(** Each way of being unprocessable makes the decoding raise. *)
Lemma unprocessable_decode (raw : string) :
  unprocessable E raw -> exists e, decode E raw = Raise e.
Proof.
  intros [e H | d k H Hk Hnone | d k v e H Hk Hv Hint]; unfold decode; rewrite H; simpl.
  - eauto.
  - repeat first
      [ match goal with
        | |- context [assoc ?f d] =>
            let Hf := fresh "Hf" in destruct (assoc f d) eqn:Hf; simpl
        | |- context [py_int E ?x] => destruct (py_int E x); simpl
        end
      | now eauto ].
    exfalso. simpl in Hk.
    repeat (destruct Hk as [<- | Hk]; [congruence|]). exact Hk.
  - repeat first
      [ match goal with
        | |- context [assoc ?f d] =>
            let Hf := fresh "Hf" in destruct (assoc f d) eqn:Hf; simpl
        | |- context [py_int E ?x] =>
            let Hp := fresh "Hp" in destruct (py_int E x) eqn:Hp; simpl
        end
      | now eauto ].
    exfalso. simpl in Hk.
    repeat (destruct Hk as [<- | Hk]; [congruence|]). exact Hk.
Qed.

End Iteration.

(** C9: a popped entry that is not JSON, lacks a required field, or carries
    a cloud-cover bound int() rejects makes the worker catch the exception
    and log it; no key is written, the entry is gone from the queue, and the
    iteration ends normally, so the loop goes on to its next tick. *)
Theorem worker_drops_unprocessable (E : env) (w : world) (raw : string) (q : list string) :
  request_queue w = raw :: q ->
  unprocessable E raw ->
  exists w',
    worker_iteration E w = (Ok tt, w') /\
    kv w' = kv w /\ request_queue w' = q /\ table w' = table w /\
    (raw <> EmptyString -> exists e, logs w' = ErrQueue e :: logs w).
Proof.
  intros Hq Hbad.
  destruct (String.eqb_spec raw EmptyString) as [-> | Hraw].
  - rewrite (worker_iteration_blank E w q Hq).
    eexists; split; [reflexivity|]. simpl. rewrite Hq. now repeat split.
  - destruct (unprocessable_decode E raw Hbad) as [e He].
    rewrite (worker_iteration_popped E w raw q Hq Hraw), He.
    eexists; split; [reflexivity|]. simpl. rewrite Hq. repeat split; eauto.
Qed.

Lemma worker_drops_unprocessable_witness :
  let E := Demo.demo Demo.plan_api (fun _ => Response 200 (Demo.features_body [Demo.f1])) Demo.db_up in
  (exists w', worker_iteration E (Demo.queued "{not json") = (Ok tt, w') /\
     kv w' = ∅ /\ request_queue w' = []) /\
  (exists w', worker_iteration E (Demo.queued Demo.raw_short) = (Ok tt, w') /\
     kv w' = ∅ /\ request_queue w' = []) /\
  (exists w', worker_iteration E (Demo.queued Demo.raw_low) = (Ok tt, w') /\
     kv w' = ∅ /\ request_queue w' = []).
Proof.
  intros E. repeat split.
  - destruct (worker_drops_unprocessable E (Demo.queued "{not json") "{not json" [])
      as (w' & Hrun & Hkv & Hq & _); [reflexivity| |exists w'; auto].
    apply (invalid_json E _ JSONDecodeError). reflexivity.
  - destruct (worker_drops_unprocessable E (Demo.queued Demo.raw_short) Demo.raw_short [])
      as (w' & Hrun & Hkv & Hq & _); [reflexivity| |exists w'; auto].
    apply (missing_field E _ [("request_id"%string, VStr "abc"); ("lon"%string, VFloat 10);
         ("lat"%string, VFloat 20); ("min_cloud"%string, VInt 0);
         ("max_cloud"%string, VInt 50)] "time_range"%string); [reflexivity| |reflexivity].
    simpl. tauto.
  - destruct (worker_drops_unprocessable E (Demo.queued Demo.raw_low) Demo.raw_low [])
      as (w' & Hrun & Hkv & Hq & _); [reflexivity| |exists w'; auto].
    apply (bad_cloud_bound E _ [("request_id"%string, VStr "abc"); ("lon"%string, VFloat 10);
         ("lat"%string, VFloat 20); ("min_cloud"%string, VStr "low");
         ("max_cloud"%string, VInt 50);
         ("time_range"%string, VStr "2024-01-01/2024-01-02")] "min_cloud"%string
         (VStr "low") ValueError); [reflexivity| |reflexivity|reflexivity].
    simpl. tauto.
Defined.

(** A 200 answer whose body has a features entry: non-empty features are
    cached as they are, an empty entry as the not-found marker, both with
    the 120-second expiry. *)
Theorem worker_caches_search_result (E : env) (w : world) (raw : string) (q : list string)
    (r : request) (payload data found : value) :
  request_queue w = raw :: q -> raw <> EmptyString ->
  decode E raw = Ok r ->
  search_payload (lon r) (lat r) (time_range r) (min_cloud r) (max_cloud r) = Ok payload ->
  http_post E payload = Response 200 (Ok data) ->
  getitem data "features" = Ok found ->
  let cached := if truthy found then found else not_found in
  exists w',
    worker_iteration E w = (Ok tt, w') /\
    kv w' = <[result_key E (request_id r) := (json_dumps E cached, 120)]> (kv w) /\
    kv w' !! result_key E (request_id r) = Some (json_dumps E cached, 120) /\
    request_queue w' = q /\
    logs w' = InfoProcessed (request_id r) :: logs w.
Proof.
  intros Hq Hraw Hd Hp Hpost Hf cached.
  rewrite (worker_iteration_popped E w raw q Hq Hraw), Hd.
  rewrite (get_landsat_items_200 E _ r payload data found Hp Hpost Hf).
  eexists; split; [reflexivity|]. simpl. rewrite Hq.
  repeat split. apply lookup_insert_eq.
Qed.

Lemma worker_caches_search_result_witness :
  let found_one := Demo.demo Demo.plan_api (fun _ => Response 200 (Demo.features_body [Demo.f1])) Demo.db_up in
  let found_none := Demo.demo Demo.plan_api (fun _ => Response 200 (Demo.features_body [])) Demo.db_up in
  (exists w', worker_iteration found_one (Demo.queued Demo.raw_abc) = (Ok tt, w') /\
     kv w' !! "result:abc"%string = Some (Demo.dumps (VList [Demo.f1]), 120)) /\
  (exists w', worker_iteration found_none (Demo.queued Demo.raw_abc) = (Ok tt, w') /\
     kv w' !! "result:abc"%string = Some (Demo.dumps not_found, 120)).
Proof.
  intros found_one found_none. split.
  - destruct (worker_caches_search_result found_one (Demo.queued Demo.raw_abc)
      Demo.raw_abc [] (mk_request (VStr "abc") (VFloat 10) (VFloat 20) 0 50
                         (VStr "2024-01-01/2024-01-02"))
      (payload_of (Util.build_square 10 20 stac_delta)
         "2024-01-01T00:00:00Z/2024-01-02T00:00:00Z" 0 50)
      (VDict [("type"%string, VStr "FeatureCollection"); ("features"%string, VList [Demo.f1])])
      (VList [Demo.f1]))
      as (w' & Hrun & _ & Hkey & _); try reflexivity; [discriminate|].
    exists w'. split; [exact Hrun|exact Hkey].
  - destruct (worker_caches_search_result found_none (Demo.queued Demo.raw_abc)
      Demo.raw_abc [] (mk_request (VStr "abc") (VFloat 10) (VFloat 20) 0 50
                         (VStr "2024-01-01/2024-01-02"))
      (payload_of (Util.build_square 10 20 stac_delta)
         "2024-01-01T00:00:00Z/2024-01-02T00:00:00Z" 0 50)
      (VDict [("type"%string, VStr "FeatureCollection"); ("features"%string, VList [])])
      (VList []))
      as (w' & Hrun & _ & Hkey & _); try reflexivity; [discriminate|].
    exists w'. split; [exact Hrun|exact Hkey].
Defined.

(** C1, as the code has it: when the entry decodes, the payload is built
    and the catalog search ends in a network failure or a status other than
    200, the worker logs the failure and still writes result:<request id>,
    holding the serialisation of None, with a 120-second expiry; the entry
    is gone from the queue and is not retried. *)
Theorem worker_caches_none_on_failure (E : env) (w : world) (raw : string) (q : list string)
    (r : request) (payload : value) (ev : log_event) :
  request_queue w = raw :: q -> raw <> EmptyString ->
  decode E raw = Ok r ->
  search_payload (lon r) (lat r) (time_range r) (min_cloud r) (max_cloud r) = Ok payload ->
  failure_log r (http_post E payload) = Some ev ->
  exists w',
    worker_iteration E w = (Ok tt, w') /\
    kv w' = <[result_key E (request_id r) := (json_dumps E VNone, 120)]> (kv w) /\
    kv w' !! result_key E (request_id r) = Some (json_dumps E VNone, 120) /\
    request_queue w' = q /\
    logs w' = InfoProcessed (request_id r) :: ev :: logs w.
Proof.
  intros Hq Hraw Hd Hp Hfail.
  rewrite (worker_iteration_popped E w raw q Hq Hraw), Hd.
  destruct (http_post E payload) as [e | status body] eqn:Hpost; simpl in Hfail.
  - injection Hfail as <-.
    rewrite (get_landsat_items_failed E _ r payload e Hp Hpost).
    eexists; split; [reflexivity|]. simpl. rewrite Hq.
    repeat split. apply lookup_insert_eq.
  - destruct (Z.eqb_spec status 200) as [|Hs]; [discriminate|].
    injection Hfail as <-.
    rewrite (get_landsat_items_status E _ r payload status body Hp Hpost Hs).
    eexists; split; [reflexivity|]. simpl. rewrite Hq.
    repeat split. apply lookup_insert_eq.
Qed.

Lemma worker_caches_none_on_failure_witness :
  let E := Demo.demo Demo.plan_api (fun _ => Failed ClientError) Demo.db_up in
  exists w',
    worker_iteration E (Demo.queued Demo.raw_abc) = (Ok tt, w') /\
    kv w' !! "result:abc"%string = Some ("null"%string, 120) /\
    request_queue w' = [].
Proof.
  intros E.
  destruct (worker_caches_none_on_failure E (Demo.queued Demo.raw_abc)
      Demo.raw_abc [] (mk_request (VStr "abc") (VFloat 10) (VFloat 20) 0 50
                         (VStr "2024-01-01/2024-01-02"))
      (payload_of (Util.build_square 10 20 stac_delta)
         "2024-01-01T00:00:00Z/2024-01-02T00:00:00Z" 0 50)
      (ErrRetrieve (VFloat 10) (VFloat 20) ClientError))
      as (w' & Hrun & _ & Hkey & Hqueue & _); try reflexivity; [discriminate|].
  exists w'. repeat split; assumption.
Defined.

(** C1, as stated, fails: the catalog search answers 500, and the worker
    writes result:abc all the same. *)
Lemma failed_search_result_written :
  let E := Demo.demo Demo.plan_api (fun _ => Response 500 (Raise JSONDecodeError)) Demo.db_up in
  let w := Demo.queued Demo.raw_abc in
  let r := mk_request (VStr "abc") (VFloat 10) (VFloat 20) 0 50 (VStr "2024-01-01/2024-01-02") in
  decode E Demo.raw_abc = Ok r /\
  (exists payload,
     search_payload (lon r) (lat r) (time_range r) (min_cloud r) (max_cloud r) = Ok payload /\
     http_post E payload = Response 500 (Raise JSONDecodeError)) /\
  kv w !! "result:abc"%string = None /\
  kv (snd (worker_iteration E w)) !! "result:abc"%string = Some ("null"%string, 120).
Proof.
  cbv zeta. split; [reflexivity|]. split.
  - eexists. split; reflexivity.
  - split; vm_compute; reflexivity.
Qed.

(** What get_landsat_items makes of a 200 answer, whatever its body. *)
Lemma get_landsat_items_on_200 (E : env) (w : world) (r : request) (payload : value)
    (body : res value) :
  search_payload (lon r) (lat r) (time_range r) (min_cloud r) (max_cloud r) = Ok payload ->
  http_post E payload = Response 200 body ->
  exists w2,
    get_landsat_items E (lon r) (lat r) (time_range r) (min_cloud r) (max_cloud r) w
      = (Ok (returned_on_200 body), w2) /\
    kv w2 = kv w /\ request_queue w2 = request_queue w /\ table w2 = table w.
Proof.
  intros Hp Hpost.
  unfold get_landsat_items, bind, lift, try_except. rewrite Hp, Hpost.
  cbn -[getitem truthy]. unfold returned_on_200.
  destruct body as [data|e]; [|eexists; split; [reflexivity|repeat split]].
  destruct (getitem data "features") as [found|e];
    [|eexists; split; [reflexivity|repeat split]].
  cbn -[getitem truthy].
  destruct (truthy found); eexists; (split; [reflexivity|repeat split]).
Qed.

(** C5, as the code has it: when the entry decodes, the payload is built
    and the catalog search answers 200, the worker writes result:<request id>
    with the 120-second expiry in every case; the entry holds the features
    when the body has a non-empty features entry, the not-found marker when
    the entry is there and empty, and the serialisation of None when the
    body cannot be decoded or has no features entry. *)
Theorem worker_caches_on_200 (E : env) (w : world) (raw : string) (q : list string)
    (r : request) (payload : value) (body : res value) :
  request_queue w = raw :: q -> raw <> EmptyString ->
  decode E raw = Ok r ->
  search_payload (lon r) (lat r) (time_range r) (min_cloud r) (max_cloud r) = Ok payload ->
  http_post E payload = Response 200 body ->
  (exists w',
     worker_iteration E w = (Ok tt, w') /\
     kv w' = <[result_key E (request_id r) :=
                 (json_dumps E (returned_on_200 body), 120)]> (kv w) /\
     kv w' !! result_key E (request_id r)
       = Some (json_dumps E (returned_on_200 body), 120) /\
     request_queue w' = q) /\
  (forall data found,
     body = Ok data -> getitem data "features" = Ok found ->
     returned_on_200 body = if truthy found then found else not_found) /\
  (forall data e,
     body = Ok data -> getitem data "features" = Raise e ->
     returned_on_200 body = VNone) /\
  (forall e, body = Raise e -> returned_on_200 body = VNone).
Proof.
  intros Hq Hraw Hd Hp Hpost. split; [|split; [|split]].
  - rewrite (worker_iteration_popped E w raw q Hq Hraw), Hd.
    destruct (get_landsat_items_on_200 E (popped w) r payload body Hp Hpost)
      as (w2 & Hrun & Hkv & Hqq & _).
    rewrite Hrun. eexists; split; [reflexivity|].
    cbn [kv request_queue logged stored]. rewrite Hkv, Hqq.
    cbn [kv request_queue popped]. rewrite Hq.
    repeat split. apply lookup_insert_eq.
  - intros data found -> Hf. unfold returned_on_200. now rewrite Hf.
  - intros data e -> Hf. unfold returned_on_200. now rewrite Hf.
  - intros e ->. reflexivity.
Qed.

Lemma worker_caches_on_200_witness :
  let with_body := fun body =>
    Demo.demo Demo.plan_api (fun _ => Response 200 body) Demo.db_up in
  (exists w', worker_iteration (with_body (Demo.features_body [Demo.f1]))
                (Demo.queued Demo.raw_abc) = (Ok tt, w') /\
     kv w' !! "result:abc"%string = Some (Demo.dumps (VList [Demo.f1]), 120)) /\
  (exists w', worker_iteration (with_body (Demo.features_body []))
                (Demo.queued Demo.raw_abc) = (Ok tt, w') /\
     kv w' !! "result:abc"%string = Some (Demo.dumps not_found, 120)) /\
  (exists w', worker_iteration (with_body (Ok (VDict [])))
                (Demo.queued Demo.raw_abc) = (Ok tt, w') /\
     kv w' !! "result:abc"%string = Some ("null"%string, 120)).
Proof.
  intros with_body.
  assert (H : forall body,
    exists w', worker_iteration (with_body body) (Demo.queued Demo.raw_abc) = (Ok tt, w') /\
      kv w' !! "result:abc"%string
        = Some (Demo.dumps (returned_on_200 body), 120)).
  { intros body.
    destruct (worker_caches_on_200 (with_body body) (Demo.queued Demo.raw_abc)
      Demo.raw_abc [] (mk_request (VStr "abc") (VFloat 10) (VFloat 20) 0 50
                         (VStr "2024-01-01/2024-01-02"))
      (payload_of (Util.build_square 10 20 stac_delta)
         "2024-01-01T00:00:00Z/2024-01-02T00:00:00Z" 0 50) body)
      as [(w' & Hrun & _ & Hkey & _) _]; try reflexivity; [discriminate|].
    exists w'. split; [exact Hrun|exact Hkey]. }
  split; [exact (H (Demo.features_body [Demo.f1]))|].
  split; [exact (H (Demo.features_body []))|exact (H (Ok (VDict [])))].
Defined.

(** C5, as stated, fails: the catalog search answers 200 with the body {},
    which has no features, and the worker caches null, not the not-found
    marker. *)
Lemma ok_without_features_caches_null :
  let E := Demo.demo Demo.plan_api (fun _ => Response 200 (Ok (VDict []))) Demo.db_up in
  let w := Demo.queued Demo.raw_abc in
  let r := mk_request (VStr "abc") (VFloat 10) (VFloat 20) 0 50 (VStr "2024-01-01/2024-01-02") in
  decode E Demo.raw_abc = Ok r /\
  (exists payload,
     search_payload (lon r) (lat r) (time_range r) (min_cloud r) (max_cloud r) = Ok payload /\
     http_post E payload = Response 200 (Ok (VDict []))) /\
  getitem (VDict []) "features" = Raise KeyError /\
  kv (snd (worker_iteration E w)) !! "result:abc"%string = Some ("null"%string, 120) /\
  json_dumps E not_found <> "null"%string.
Proof.
  cbv zeta. split; [reflexivity|]. split; [eexists; split; reflexivity|].
  split; [reflexivity|]. split; [vm_compute; reflexivity|].
  vm_compute. discriminate.
Qed.

End WorkerFacts.

(** ** Calendar arithmetic *)

Module DatetimeFacts.

Lemma is_leap_spec (y : Z) :
  is_leap y = true <-> (y mod 4 = 0 /\ (y mod 100 <> 0 \/ y mod 400 = 0)).
Proof.
  unfold is_leap.
  destruct (Z.eqb_spec (y mod 4) 0), (Z.eqb_spec (y mod 100) 0),
    (Z.eqb_spec (y mod 400) 0); simpl; intuition (try discriminate; try lia).
Qed.

Lemma days_in_month_bounds (y m : Z) : 28 <= days_in_month y m <= 31.
Proof.
  unfold days_in_month.
  destruct (m =? 2); [destruct (is_leap y); lia|].
  destruct ((m =? 4) || (m =? 6) || (m =? 9) || (m =? 11)); lia.
Qed.

Lemma month_cases (m : Z) :
  1 <= m <= 12 ->
  m = 1 \/ m = 2 \/ m = 3 \/ m = 4 \/ m = 5 \/ m = 6 \/
  m = 7 \/ m = 8 \/ m = 9 \/ m = 10 \/ m = 11 \/ m = 12.
Proof. lia. Qed.

Ltac each_month H :=
  destruct (month_cases _ H) as
    [-> | [-> | [-> | [-> | [-> | [-> | [-> | [-> | [-> | [-> | [-> | ->]]]]]]]]]]].

(** The days before the next month are those before this one plus its length. *)
Lemma days_before_next_month (y m : Z) :
  1 <= m <= 11 ->
  days_before_month y (m + 1) = days_before_month y m + days_in_month y m.
Proof.
  intros H. assert (H' : 1 <= m <= 12) by lia.
  each_month H'; try lia;
    unfold days_before_month, days_in_month; simpl; destruct (is_leap y); reflexivity.
Qed.

Lemma days_before_next_year (y : Z) :
  days_before_year (y + 1) = days_before_year y + 365 + (if is_leap y then 1 else 0).
Proof.
  unfold days_before_year. replace (y + 1 - 1) with y by lia.
  destruct (is_leap y) eqn:Hl.
  - apply is_leap_spec in Hl. cbv zeta. Z.div_mod_to_equations. lia.
  - assert (Hn : ~ (y mod 4 = 0 /\ (y mod 100 <> 0 \/ y mod 400 = 0))).
    { intros H. apply is_leap_spec in H. congruence. }
    cbv zeta. Z.div_mod_to_equations. lia.
Qed.

Lemma days_before_year_le (a b : Z) :
  a <= b -> days_before_year a <= days_before_year b.
Proof.
  intros H. unfold days_before_year. cbv zeta. Z.div_mod_to_equations. lia.
Qed.

(** Within a year, the ordinal stays below the first day of the next one. *)
Lemma toordinal_below_next_year (d : datetime) :
  valid d -> toordinal d < days_before_year (year d + 1) + 1.
Proof.
  intros (Hy & Hm & Hd & _). unfold toordinal.
  rewrite days_before_next_year.
  assert (days_before_month (year d) (month d) + days_in_month (year d) (month d)
          <= 365 + (if is_leap (year d) then 1 else 0)).
  { each_month Hm; unfold days_before_month, days_in_month; simpl;
      destruct (is_leap (year d)); lia. }
  lia.
Qed.

Lemma toordinal_year_bound (d : datetime) :
  valid d -> year d < MAXYEAR -> toordinal d + 365 <= MAXORDINAL.
Proof.
  intros Hv Hy. pose proof (toordinal_below_next_year d Hv) as H.
  pose proof (days_before_year_le (year d + 1) MAXYEAR) as Hle.
  unfold MAXYEAR in *. assert (Hc : days_before_year 9999 = 3651694) by reflexivity.
  unfold MAXORDINAL. lia.
Qed.

(** One added day: the next ordinal, the same time of day, still valid. *)
Lemma add_day_spec (d d' : datetime) :
  valid d -> add_day d = Ok d' ->
  valid d' /\ toordinal d' = toordinal d + 1 /\ same_time d d'.
Proof.
  intros (Hy & Hm & Hd & Hh & Hmi & Hs & Hus). unfold add_day.
  destruct (Z.ltb_spec (day d) (days_in_month (year d) (month d))) as [Hlt|Hge].
  - intros [= <-]. unfold valid, toordinal, same_time. simpl.
    repeat split; try lia.
  - destruct (Z.ltb_spec (month d) 12) as [Hlt|Hge'].
    + intros [= <-]. unfold valid, toordinal, same_time. simpl.
      pose proof (days_in_month_bounds (year d) (month d + 1)).
      rewrite days_before_next_month by lia.
      repeat split; try lia.
    + destruct (Z.ltb_spec (year d) MAXYEAR) as [Hlt|Hge'']; [|discriminate].
      intros [= <-]. unfold valid, toordinal, same_time. simpl.
      rewrite days_before_next_year.
      assert (Hm12 : month d = 12) by lia. rewrite Hm12 in *.
      assert (Hdim : days_in_month (year d) 12 = 31) by reflexivity.
      assert (Hdbm : days_before_month (year d) 12
                     = 334 + (if is_leap (year d) then 1 else 0)) by reflexivity.
      assert (H1 : days_before_month (year d + 1) 1 = 0) by reflexivity.
      assert (Hd1 : days_in_month (year d + 1) 1 = 31) by reflexivity.
      rewrite Hd1, H1, Hdbm. unfold MAXYEAR in *.
      repeat split; try lia.
Qed.

(** The addition overflows on 9999-12-31 only. *)
Lemma add_day_ok (d : datetime) :
  valid d -> toordinal d < MAXORDINAL -> exists d', add_day d = Ok d'.
Proof.
  intros (Hy & Hm & Hd & _) Hord. unfold add_day.
  destruct (Z.ltb_spec (day d) (days_in_month (year d) (month d))); [eauto|].
  destruct (Z.ltb_spec (month d) 12); [eauto|].
  destruct (Z.ltb_spec (year d) MAXYEAR); [eauto|].
  exfalso. unfold MAXYEAR in *.
  assert (Hy' : year d = 9999) by lia. assert (Hm' : month d = 12) by lia.
  unfold toordinal, MAXORDINAL in Hord. rewrite Hy', Hm' in *.
  assert (Hdim : days_in_month 9999 12 = 31) by reflexivity.
  assert (Hc : days_before_year 9999 + days_before_month 9999 12 = 3652028) by reflexivity.
  lia.
Qed.

(** [n] iterations visit the [n] days after the start, one day apart. *)
Lemma cursors_spec (n : nat) :
  forall d, valid d -> toordinal d + Z.of_nat n <= MAXORDINAL ->
  length (cursors n d) = n /\
  forall k c, nth_error (cursors n d) k = Some c ->
    valid c /\ toordinal c = toordinal d + Z.of_nat k + 1 /\ same_time d c.
Proof.
  induction n as [|n IH]; intros d Hv Hord.
  - split; [reflexivity|]. intros [|k] c; discriminate.
  - destruct (add_day_ok d Hv) as [d' Hd']; [lia|].
    destruct (add_day_spec d d' Hv Hd') as (Hv' & Ho' & Ht').
    simpl. rewrite Hd'.
    destruct (IH d' Hv') as [Hlen Hnth]; [lia|].
    split; [simpl; now rewrite Hlen|].
    intros [|k] c Hk; simpl in Hk.
    + injection Hk as <-. repeat split; try apply Hv'; try apply Ht'. lia.
    + destruct (Hnth k c Hk) as (Hvc & Hoc & Htc).
      repeat split; try apply Hvc; [lia| | | |];
        unfold same_time in *; intuition congruence.
Qed.

(** Later months start after the earlier ones end. *)
Lemma days_before_month_lt (y m1 m2 : Z) :
  1 <= m1 <= 12 -> 1 <= m2 <= 12 -> m1 < m2 ->
  days_before_month y m1 + days_in_month y m1 <= days_before_month y m2.
Proof.
  intros H1 H2 Hlt.
  each_month H1; each_month H2; try lia;
    unfold days_before_month, days_in_month; simpl; destruct (is_leap y); lia.
Qed.

Lemma days_before_month_nonneg (y m : Z) : 0 <= days_before_month y m.
Proof.
  unfold days_before_month.
  repeat match goal with |- context [if ?b then _ else _] => destruct b end; lia.
Qed.

(** The ordinal tells the calendar day: two valid dates with the same
    ordinal are the same day. *)
Lemma toordinal_inj (a b : datetime) :
  valid a -> valid b -> toordinal a = toordinal b -> same_day a b.
Proof.
  intros Ha Hb Ho.
  pose proof (toordinal_below_next_year a Ha) as Hna.
  pose proof (toordinal_below_next_year b Hb) as Hnb.
  destruct Ha as (_ & Hma & Hda & _), Hb as (_ & Hmb & Hdb & _).
  pose proof (days_before_month_nonneg (year a) (month a)).
  pose proof (days_before_month_nonneg (year b) (month b)).
  assert (Hy : year a = year b).
  { destruct (Z.lt_trichotomy (year a) (year b)) as [Hlt | [Heq | Hgt]]; [|exact Heq|].
    - pose proof (days_before_year_le (year a + 1) (year b) ltac:(lia)).
      unfold toordinal in *. lia.
    - pose proof (days_before_year_le (year b + 1) (year a) ltac:(lia)).
      unfold toordinal in *. lia. }
  unfold toordinal in Ho. rewrite Hy in *.
  assert (Hm : month a = month b).
  { destruct (Z.lt_trichotomy (month a) (month b)) as [Hlt | [Heq | Hgt]]; [|exact Heq|].
    - pose proof (days_before_month_lt (year b) _ _ Hma Hmb Hlt). lia.
    - pose proof (days_before_month_lt (year b) _ _ Hmb Hma ltac:(lia)). lia. }
  rewrite Hm in *. unfold same_day. repeat split; lia.
Qed.

(** No valid date lies beyond 9999-12-31. *)
Lemma toordinal_max (d : datetime) : valid d -> toordinal d <= MAXORDINAL.
Proof.
  intros Hv. pose proof (toordinal_below_next_year d Hv) as H.
  destruct Hv as (Hy & _). unfold MAXYEAR in Hy.
  pose proof (days_before_year_le (year d + 1) 10000 ltac:(lia)) as Hle.
  assert (Hc : days_before_year 10000 = 3652059) by reflexivity.
  unfold MAXORDINAL. lia.
Qed.

(** On the last day the addition overflows. *)
Lemma add_day_overflow (d : datetime) :
  valid d -> MAXORDINAL <= toordinal d -> add_day d = Raise OverflowError.
Proof.
  intros Hv Hord. destruct (add_day d) as [d'|e] eqn:Hd.
  - destruct (add_day_spec d d' Hv Hd) as (Hv' & Ho & _).
    pose proof (toordinal_max d' Hv'). lia.
  - unfold add_day in Hd.
    destruct (day d <? _); [discriminate|].
    destruct (month d <? 12); [discriminate|].
    destruct (year d <? MAXYEAR); [discriminate|].
    now injection Hd as <-.
Qed.

End DatetimeFacts.

(** ** The acquisition scheduler *)

Module SchedulerFacts.

Import Scheduler.

(** The newest date is one of the dates and no date is above it. *)
Lemma newest_max (dates : list string) (D : string) :
  newest dates = Some D ->
  In D dates /\ Forall (fun x => String.le x D) dates.
Proof.
  revert D. induction dates as [|d ds IH]; intros D; simpl; [discriminate|].
  destruct (newest ds) as [m|] eqn:Hm.
  - destruct (IH m eq_refl) as [Hin Hall].
    destruct (String.leb d m) eqn:Hle; intros [= <-].
    + split; [now right|]. constructor; [|exact Hall].
      unfold String.le. now rewrite Hle.
    + assert (Hmd : String.le m d).
      { destruct (total String.le d m) as [H|H]; [|exact H].
        unfold String.le in H. rewrite Hle in H. contradiction. }
      split; [now left|]. constructor; [reflexivity|].
      eapply Forall_impl; [exact Hall|].
      intros x Hx. simpl in Hx. now transitivity m.
  - intros [= <-]. destruct ds; [|simpl in Hm; destruct (newest ds); [destruct (String.leb s _)|]; discriminate].
    split; [now left|]. constructor; [reflexivity|constructor].
Qed.

Lemma newest_some (dates : list string) :
  dates <> [] -> exists D, newest dates = Some D.
Proof.
  destruct dates as [|d ds]; [congruence|]. intros _. simpl.
  destruct (newest ds) as [m|]; [destruct (String.leb d m)|]; eauto.
Qed.

Lemma dates_of_app (s : string) (rows rows' : list (string * string)) :
  dates_of s (rows ++ rows') = dates_of s rows ++ dates_of s rows'.
Proof. unfold dates_of. now rewrite List.filter_app, map_app. Qed.

Lemma dates_of_other (s sat date_ : string) (rows : list (string * string)) :
  s <> sat -> dates_of s (rows ++ [(sat, date_)]) = dates_of s rows.
Proof.
  intros Hne. rewrite dates_of_app. unfold dates_of at 2. simpl.
  apply not_eq_sym, String.eqb_neq in Hne. rewrite Hne. simpl. apply app_nil_r.
Qed.

Section Sweep.

Variable E : env.

Lemma get_the_last_date_spec (satellite : string) (w : world) :
  get_the_last_date E satellite w =
    match db_ok E (SelectLast satellite) with
    | Ok _ => (Ok (newest (dates_of satellite (table w))), w)
    | Raise e => (Ok None, logged (ErrLastDate satellite e) w)
    end.
Proof.
  unfold get_the_last_date, try_except, bind, lift, read_table, ret.
  destruct (db_ok E (SelectLast satellite)); reflexivity.
Qed.

Lemma start_date_spec (satellite : string) (w : world) :
  start_date E satellite w =
    (starting_cursor E w satellite,
     match db_ok E (SelectLast satellite) with
     | Ok _ => w
     | Raise e => logged (ErrLastDate satellite e) w
     end).
Proof.
  unfold start_date, starting_cursor, bind. rewrite get_the_last_date_spec.
  destruct (db_ok E (SelectLast satellite)); [|reflexivity].
  destruct (newest _) as [s|]; [|reflexivity].
  destruct (String.eqb s ""); reflexivity.
Qed.

Lemma save_to_db_spec (features : value) (date : datetime) (satellite : string) (w : world) :
  save_to_db E features date satellite w =
    match db_ok E (InsertRow satellite (strftime_seconds date)) with
    | Ok _ => (Ok tt, logged (InfoSavedDb satellite (strftime_seconds date))
                        (appended satellite (strftime_seconds date) w))
    | Raise e => (Ok tt, logged (ErrSaveDb satellite e) w)
    end.
Proof.
  unfold save_to_db, try_except, bind, lift.
  destruct (db_ok E _); reflexivity.
Qed.

(** A truthy [data.get("features")] is [data["features"]]. *)
Lemma get_truthy (data found : value) :
  get data "features" = Ok found -> truthy found = true ->
  getitem data "features" = Ok found.
Proof.
  destruct data; try discriminate. simpl.
  destruct (assoc _ _); intros [= <-]; [reflexivity|discriminate].
Qed.

(** A probe that finds features: the row is inserted when the store
    takes it, and the cache entry is written either way. *)
Lemma probe_saved (satellite : string) (date : datetime) (w : world) (data found : value) :
  http_get E (mk_params (API_KEY E) satellite (strftime_midnight date)) = Response 200 (Ok data) ->
  get data "features" = Ok found -> truthy found = true ->
  probe E satellite date w =
    (Ok tt,
     logged (InfoSaved satellite (strftime_date date))
       (stored (strftime_date date) (json_dumps E found) (604800 * 3)
          (snd (save_to_db E found date satellite
                  (requested (mk_params (API_KEY E) satellite (strftime_midnight date)) w))))).
Proof.
  intros Hget Hfound Htruthy.
  unfold probe, try_except, bind, lift, record_get.
  rewrite Hget. cbn -[get getitem truthy save_to_db strftime_date strftime_midnight Z.mul].
  rewrite Hfound. cbn -[get getitem truthy save_to_db strftime_date strftime_midnight Z.mul].
  rewrite Htruthy, (get_truthy data found Hfound Htruthy).
  rewrite save_to_db_spec.
  destruct (db_ok E _); reflexivity.
Qed.

(** A probe that finds no features only logs. *)
Lemma probe_no_data (satellite : string) (date : datetime) (w : world) (data found : value) :
  http_get E (mk_params (API_KEY E) satellite (strftime_midnight date)) = Response 200 (Ok data) ->
  get data "features" = Ok found -> truthy found = false ->
  probe E satellite date w =
    (Ok tt,
     logged (InfoNoData satellite (strftime_date date))
       (requested (mk_params (API_KEY E) satellite (strftime_midnight date)) w)).
Proof.
  intros Hget Hfound Htruthy.
  unfold probe, try_except, bind, lift, record_get.
  rewrite Hget. cbn -[get getitem truthy save_to_db strftime_date strftime_midnight Z.mul].
  rewrite Hfound. cbn -[get getitem truthy save_to_db strftime_date strftime_midnight Z.mul].
  rewrite Htruthy. reflexivity.
Qed.

(** Whatever the answer, a probe returns normally, issues one request,
    leaves the queue alone and touches no other satellite's rows. *)
Lemma probe_frame (satellite : string) (date : datetime) (w : world) :
  exists w',
    probe E satellite date w = (Ok tt, w') /\
    sent w' = mk_params (API_KEY E) satellite (strftime_midnight date) :: sent w /\
    request_queue w' = request_queue w /\
    forall s, s <> satellite -> dates_of s (table w') = dates_of s (table w).
Proof.
  destruct (http_get E (mk_params (API_KEY E) satellite (strftime_midnight date)))
    as [e | status body] eqn:Hget.
  - unfold probe, try_except, bind, lift, record_get. rewrite Hget.
    eexists; split; [reflexivity|]. simpl. auto.
  - destruct (Z.eqb_spec status 200) as [-> | Hs].
    + destruct body as [data | e].
      * destruct (get data "features") as [found | e] eqn:Hfound.
        -- destruct (truthy found) eqn:Ht.
           ++ rewrite (probe_saved _ _ _ data found Hget Hfound Ht), save_to_db_spec.
              eexists; split; [reflexivity|].
              destruct (db_ok E _); simpl; repeat split; auto.
              intros s Hne. now apply dates_of_other.
           ++ rewrite (probe_no_data _ _ _ data found Hget Hfound Ht).
              eexists; split; [reflexivity|]. simpl. auto.
        -- unfold probe, try_except, bind, lift, record_get. rewrite Hget.
           cbn -[get getitem truthy save_to_db strftime_date strftime_midnight Z.mul].
           rewrite Hfound.
           eexists; split; [reflexivity|]. simpl. auto.
      * unfold probe, try_except, bind, lift, record_get. rewrite Hget.
        eexists; split; [reflexivity|]. simpl. auto.
    + apply Z.eqb_neq in Hs.
      unfold probe, try_except, bind, lift, record_get. rewrite Hget, Hs.
      eexists; split; [reflexivity|]. simpl. auto.
Qed.

(** The window returns normally when the calendar has room for its days;
    it issues one request per cursor value, in order. *)
Lemma window_spec (satellite : string) (n : nat) :
  forall d w, valid d -> toordinal d + Z.of_nat n <= MAXORDINAL ->
  exists w',
    window E n satellite d w = (Ok tt, w') /\
    sent w' = rev (map (params_of E satellite) (cursors n d)) ++ sent w /\
    request_queue w' = request_queue w /\
    forall s, s <> satellite -> dates_of s (table w') = dates_of s (table w).
Proof.
  induction n as [|n IH]; intros d w Hv Hord.
  - exists w. repeat split; reflexivity.
  - destruct (DatetimeFacts.add_day_ok d Hv) as [d' Hd']; [lia|].
    destruct (DatetimeFacts.add_day_spec d d' Hv Hd') as (Hv' & Ho' & _).
    destruct (probe_frame satellite d' w) as (w1 & Hp & Hs1 & Hq1 & Ht1).
    destruct (IH d' w1 Hv') as (w' & Hw & Hs & Hq & Ht); [lia|].
    exists w'. split; [|split; [|split]].
    + cbn [window]. unfold bind, lift. rewrite Hd', Hp. exact Hw.
    + cbn [cursors]. rewrite Hd', Hs, Hs1. cbn [map rev].
      now rewrite <- app_assoc.
    + congruence.
    + intros s Hne. rewrite (Ht s Hne). now apply Ht1.
Qed.

Lemma probes_of_sent (s : string) (w w' : world) (new : list get_params) :
  sent w' = rev new ++ sent w ->
  probes_of s w' =
    probes_of s w ++ map p_datetime (List.filter (fun p => String.eqb (p_satellites p) s) new).
Proof.
  intros H. unfold probes_of.
  now rewrite H, rev_app_distr, rev_involutive, List.filter_app, map_app.
Qed.

Lemma probes_same (satellite : string) (cs : list datetime) :
  map p_datetime
    (List.filter (fun p => String.eqb (p_satellites p) satellite)
       (map (params_of E satellite) cs))
  = map strftime_midnight cs.
Proof.
  induction cs as [|c cs IH]; [reflexivity|].
  cbn [map List.filter params_of p_satellites]. rewrite String.eqb_refl.
  cbn [map p_datetime]. now rewrite IH.
Qed.

Lemma probes_other (s satellite : string) (cs : list datetime) :
  s <> satellite ->
  List.filter (fun p => String.eqb (p_satellites p) s) (map (params_of E satellite) cs) = [].
Proof.
  intros Hne. apply not_eq_sym, String.eqb_neq in Hne.
  induction cs as [|c cs IH]; [reflexivity|].
  cbn [map List.filter params_of p_satellites]. now rewrite Hne.
Qed.

Lemma starting_cursor_frame (s : string) (w w' : world) :
  dates_of s (table w') = dates_of s (table w) ->
  starting_cursor E w' s = starting_cursor E w s.
Proof. intros H. unfold starting_cursor. now rewrite H. Qed.

(** One satellite's part of the cycle. *)
Lemma sweep_satellite_spec (satellite : string) (w : world) (d : datetime) :
  starting_cursor E w satellite = Ok d -> valid d -> year d < MAXYEAR ->
  exists w',
    sweep_satellite E satellite w = (Ok tt, w') /\
    probes_of satellite w' = probes_of satellite w ++ map strftime_midnight (cursors 100 d) /\
    request_queue w' = request_queue w /\
    forall s, s <> satellite ->
      probes_of s w' = probes_of s w /\ dates_of s (table w') = dates_of s (table w).
Proof.
  intros Hstart Hv Hy.
  pose proof (DatetimeFacts.toordinal_year_bound d Hv Hy) as Hord.
  unfold sweep_satellite, bind. rewrite start_date_spec, Hstart.
  set (w0 := match db_ok E (SelectLast satellite) with
             | Ok _ => w
             | Raise e => logged (ErrLastDate satellite e) w
             end).
  assert (Hw0 : sent w0 = sent w /\ table w0 = table w /\ request_queue w0 = request_queue w).
  { subst w0. destruct (db_ok E _); repeat split. }
  destruct Hw0 as (Hs0 & Ht0 & Hq0).
  destruct (window_spec satellite 100 d w0 Hv) as (w' & Hw & Hs & Hq & Ht); [simpl; lia|].
  rewrite Hs0 in Hs.
  exists w'. split; [exact Hw|]. split; [|split].
  - rewrite (probes_of_sent _ w w' _ Hs). now rewrite probes_same.
  - congruence.
  - intros s Hne. split.
    + rewrite (probes_of_sent _ w w' _ Hs), (probes_other s satellite _ Hne).
      apply app_nil_r.
    + rewrite (Ht s Hne). now rewrite Ht0.
Qed.

(** The satellites are swept one after the other, each from the cursor
    the world at the beginning of the cycle gives it. *)
Lemma for_each_sweep (l : list string) :
  NoDup l ->
  forall w,
    (forall s, In s l -> exists d, starting_cursor E w s = Ok d /\ valid d /\ year d < MAXYEAR) ->
    exists w',
      for_each l (sweep_satellite E) w = (Ok tt, w') /\
      request_queue w' = request_queue w /\
      (forall s d, In s l -> starting_cursor E w s = Ok d ->
         probes_of s w' = probes_of s w ++ map strftime_midnight (cursors 100 d)) /\
      (forall s, ~ In s l ->
         probes_of s w' = probes_of s w /\ dates_of s (table w') = dates_of s (table w)).
Proof.
  induction l as [|x l IH]; intros Hnd w Hstart.
  - exists w. repeat split; try reflexivity. intros s d [].
  - apply NoDup_cons in Hnd as [Hx Hnd]. rewrite list_elem_of_In in Hx.
    destruct (Hstart x (or_introl eq_refl)) as (dx & Hdx & Hvx & Hyx).
    destruct (sweep_satellite_spec x w dx Hdx Hvx Hyx) as (w1 & Hrun1 & Hp1 & Hq1 & Hf1).
    destruct (IH Hnd w1) as (w' & Hrun & Hq & Hin & Hout).
    { intros s Hs. assert (Hne : s <> x) by (intros ->; contradiction).
      destruct (Hf1 s Hne) as [_ Hdates].
      rewrite (starting_cursor_frame s w w1 Hdates). apply Hstart. now right. }
    exists w'. split; [|split; [|split]].
    + cbn [for_each]. unfold bind. rewrite Hrun1. exact Hrun.
    + congruence.
    + intros s d [<- | Hs] Hd.
      * destruct (Hout x Hx) as [Hp _]. rewrite Hp, Hp1. congruence.
      * assert (Hne : s <> x) by (intros ->; contradiction).
        destruct (Hf1 s Hne) as [Hps Hdates].
        rewrite (Hin s d Hs); [now rewrite Hps|].
        now rewrite (starting_cursor_frame s w w1 Hdates).
    + intros s Hs. assert (Hne : s <> x) by (intros ->; apply Hs; now left).
      assert (Hs' : ~ In s l) by (intros H; apply Hs; now right).
      destruct (Hout s Hs') as [Hp Hd]. destruct (Hf1 s Hne) as [Hp' Hd'].
      split; congruence.
Qed.

End Sweep.


Lemma nodup_satellites : NoDup SATELLITES.
Proof.
  unfold SATELLITES. apply NoDup_cons; split.
  - rewrite list_elem_of_In. simpl. intros [H | []]. discriminate.
  - apply NoDup_cons; split; [|apply NoDup_nil; exact I].
    rewrite list_elem_of_In. intros [].
Qed.

Lemma is_digit_digit (n : Z) : Util.is_digit (digit n) = true.
Proof.
  unfold digit. pose proof (Z.mod_pos_bound n 10 ltac:(lia)) as H.
  assert (Hc : n mod 10 = 0 \/ n mod 10 = 1 \/ n mod 10 = 2 \/ n mod 10 = 3 \/
               n mod 10 = 4 \/ n mod 10 = 5 \/ n mod 10 = 6 \/ n mod 10 = 7 \/
               n mod 10 = 8 \/ n mod 10 = 9) by lia.
  destruct Hc as [-> | [-> | [-> | [-> | [-> | [-> | [-> | [-> | [-> | ->]]]]]]]]];
    reflexivity.
Qed.

Lemma year_text_four (y : Z) : 1000 <= y -> year_text y = pad4 y.
Proof.
  intros H. unfold year_text.
  destruct (Z.ltb_spec y 10); [lia|].
  destruct (Z.ltb_spec y 100); [lia|].
  destruct (Z.ltb_spec y 1000); [lia|reflexivity].
Qed.

(** From the year 1000 on the cache key has the form YYYY-MM-DD. *)
Lemma strftime_date_iso (d : datetime) :
  1000 <= year d -> Util.is_iso_date (strftime_date d) = true.
Proof.
  intros H. unfold strftime_date. rewrite (year_text_four _ H).
  cbv [Util.is_iso_date pad4 pad2 String.append list_ascii_of_string forallb].
  rewrite !is_digit_digit. reflexivity.
Qed.


Lemma save_to_db_effect (E : env) (features : value) (date : datetime)
    (satellite : string) (w : world) :
  kv (snd (save_to_db E features date satellite w)) = kv w /\
  table (snd (save_to_db E features date satellite w)) =
    match db_ok E (InsertRow satellite (strftime_seconds date)) with
    | Ok _ => table w ++ [(satellite, strftime_seconds date)]
    | Raise _ => table w
    end.
Proof.
  rewrite save_to_db_spec. destruct (db_ok E _); split; reflexivity.
Qed.





Lemma in_dates_of (s x : string) (rows : list (string * string)) :
  In x (dates_of s rows) <-> In (s, x) rows.
Proof.
  unfold dates_of. rewrite in_map_iff. split.
  - intros ([s' x'] & <- & Hin). apply List.filter_In in Hin as [Hin Heq].
    simpl in Heq. apply String.eqb_eq in Heq. simpl. now subst s'.
  - intros Hin. exists (s, x). split; [reflexivity|].
    apply List.filter_In. split; [exact Hin|]. simpl. apply String.eqb_refl.
Qed.

(** The row the query returns is the latest record of the satellite. *)
Lemma latest_record_newest (w : world) (s D : string) :
  latest_record w s D -> newest (dates_of s (table w)) = Some D.
Proof.
  intros [Hin Hmax].
  destruct (newest_some (dates_of s (table w))) as [D' HD'].
  { intros Hnil. apply in_dates_of in Hin. rewrite Hnil in Hin. destruct Hin. }
  destruct (newest_max _ _ HD') as [Hin' Hall].
  rewrite List.Forall_forall in Hall.
  f_equal. rewrite HD'. f_equal.
  apply (anti_symm String.le).
  - apply Hmax. now apply in_dates_of.
  - apply Hall. now apply in_dates_of.
Qed.

Lemma no_record_newest (w : world) (s : string) :
  no_record w s -> newest (dates_of s (table w)) = None.
Proof.
  intros Hno. destruct (dates_of s (table w)) as [|x l] eqn:Hd; [reflexivity|].
  exfalso. apply (Hno x), in_dates_of. rewrite Hd. now left.
Qed.

(** With a successful read, the sweep starts from the moment the rows
    themselves give. *)
Lemma resumes_starting_cursor (E : env) (w : world) (s : string) (d : datetime) (u : unit) :
  db_ok E (SelectLast s) = Ok u -> resumes E w s d -> starting_cursor E w s = Ok d.
Proof.
  intros Hdb Hr. unfold starting_cursor. rewrite Hdb.
  destruct Hr as [D Hlatest Hne Hparse | Hno ->].
  - rewrite (latest_record_newest w s D Hlatest).
    apply String.eqb_neq in Hne. now rewrite Hne.
  - now rewrite (no_record_newest w s Hno).
Qed.

(** C2: when the progress table can be read and every tracked satellite has
    a usable resumption point (a valid date before year 9999), one cycle
    returns normally and, for each satellite, issues exactly 100 probes, one
    per calendar day: the k-th probe (from 0) asks for the valid date whose
    ordinal is that of the resumption point plus k + 1.  The resumption
    point is read off the rows of the table: with a record for the
    satellite it is the parsed date D of the row no other row of the
    satellite exceeds, so the first probe is D plus one day; with no row
    for the satellite it is the clock reading. *)
Theorem fetch_cycle_probes (E : env) (w : world) :
  (forall s, In s SATELLITES -> exists u, db_ok E (SelectLast s) = Ok u) ->
  (forall s, In s SATELLITES ->
     exists d, resumes E w s d /\ valid d /\ year d < MAXYEAR) ->
  exists w',
    fetch_and_save_data_cycle E w = (Ok tt, w') /\
    forall s d, In s SATELLITES -> resumes E w s d ->
      exists cs,
        probes_of s w' = probes_of s w ++ map strftime_midnight cs /\
        length cs = 100%nat /\
        forall k c, nth_error cs k = Some c ->
          valid c /\ toordinal c = toordinal d + Z.of_nat k + 1 /\ same_time d c.
Proof.
  intros Hdb Hres.
  assert (Hstart : forall s, In s SATELLITES ->
            exists d, starting_cursor E w s = Ok d /\ valid d /\ year d < MAXYEAR).
  { intros s Hs. destruct (Hdb s Hs) as [u Hu].
    destruct (Hres s Hs) as (d & Hr & Hv & Hy).
    exists d. split; [exact (resumes_starting_cursor E w s d u Hu Hr)|now split]. }
  destruct (for_each_sweep E SATELLITES nodup_satellites w Hstart)
    as (w' & Hrun & _ & Hin & _).
  exists w'. split; [exact Hrun|].
  intros s d Hs Hr.
  destruct (Hdb s Hs) as [u Hu].
  pose proof (resumes_starting_cursor E w s d u Hu Hr) as Hd.
  destruct (Hstart s Hs) as (d' & Hd' & Hv & Hy).
  assert (d' = d) by congruence. subst d'.
  pose proof (DatetimeFacts.toordinal_year_bound d Hv Hy) as Hord.
  destruct (DatetimeFacts.cursors_spec 100 d Hv) as [Hlen Hnth]; [simpl; lia|].
  exists (cursors 100 d). split; [now apply Hin|]. split; [exact Hlen|exact Hnth].
Qed.

Lemma fetch_cycle_probes_witness :
  let E := Demo.demo Demo.plan_api (fun _ => Failed ClientError) Demo.db_up in
  let w := Demo.with_rows [("Landsat-8", "2024-01-05 00:00:00"); ("Landsat-8", "2024-01-10 06:30:00");
                           ("Landsat-8", "2023-12-27 00:00:00")]%string in
  exists w',
    fetch_and_save_data_cycle E w = (Ok tt, w') /\
    length (probes_of "Landsat-8" w') = 100%nat /\
    firstn 2 (probes_of "Landsat-8" w') = ["2024-01-11T00:00:00Z"; "2024-01-12T00:00:00Z"]%string /\
    length (probes_of "Landsat-9" w') = 100%nat /\
    firstn 2 (probes_of "Landsat-9" w') = ["2024-03-05T00:00:00Z"; "2024-03-06T00:00:00Z"]%string.
Proof.
  intros E w.
  assert (H8 : resumes E w "Landsat-8" (mk_datetime 2024 1 10 6 30 0 0)).
  { apply (resumes_from_record E w _ _ "2024-01-10 06:30:00"); [|discriminate|reflexivity].
    split; [right; now left|].
    intros x [[= <-] | [[= <-] | [[= <-] | []]]]; vm_compute; exact I. }
  assert (H9 : resumes E w "Landsat-9" Demo.clock).
  { apply resumes_from_clock; [|reflexivity].
    intros x [[=] | [[=] | [[=] | []]]]. }
  destruct (fetch_cycle_probes E w) as (w' & Hrun & Hall).
  - intros s _. now exists tt.
  - intros s [<- | [<- | []]].
    + exists (mk_datetime 2024 1 10 6 30 0 0). split; [exact H8|].
      unfold valid, MAXYEAR, days_in_month; simpl. lia.
    + exists Demo.clock. split; [exact H9|].
      unfold valid, MAXYEAR, days_in_month; simpl. lia.
  - exists w'. split; [exact Hrun|].
    destruct (Hall "Landsat-8"%string _ (or_introl eq_refl) H8) as (cs8 & Hp8 & Hl8 & _).
    destruct (Hall "Landsat-9"%string _ (or_intror (or_introl eq_refl)) H9)
      as (cs9 & Hp9 & Hl9 & _).
    assert (Hw' : w' = snd (fetch_and_save_data_cycle E w)) by now rewrite Hrun.
    split; [rewrite Hp8, length_app, length_map, Hl8; reflexivity|].
    split; [rewrite Hw'; vm_compute; reflexivity|].
    split; [rewrite Hp9, length_app, length_map, Hl9; reflexivity|].
    rewrite Hw'. vm_compute. reflexivity.
Defined.

(** A non-empty stored date that strptime rejects is not caught: the
    exception leaves start_date and the satellite's sweep. *)
Lemma start_date_unparsable (E : env) (satellite : string) (w : world)
    (u : unit) (D : string) (e : exn) :
  db_ok E (SelectLast satellite) = Ok u ->
  newest (dates_of satellite (table w)) = Some D -> D <> EmptyString ->
  strptime E D = Raise e ->
  start_date E satellite w = (Raise e, w) /\
  sweep_satellite E satellite w = (Raise e, w).
Proof.
  intros Hu HD HDne He. apply String.eqb_neq in HDne.
  assert (Hs : start_date E satellite w = (Raise e, w)).
  { rewrite start_date_spec. unfold starting_cursor. now rewrite Hu, HD, HDne, He. }
  split; [exact Hs|]. unfold sweep_satellite, bind. now rewrite Hs.
Qed.

(** C4, as the code has it: get_the_last_date never raises and changes no
    store; when the read fails it logs and returns None, and the scheduler
    starts from the clock; so it does when the read succeeds and there is no
    record, or the newest one is empty. *)
Theorem start_date_fallback (E : env) (satellite : string) (w : world) :
  (exists o w', get_the_last_date E satellite w = (Ok o, w') /\
                kv w' = kv w /\ table w' = table w) /\
  (forall e, db_ok E (SelectLast satellite) = Raise e ->
     get_the_last_date E satellite w = (Ok None, logged (ErrLastDate satellite e) w) /\
     start_date E satellite w = (Ok (now E satellite), logged (ErrLastDate satellite e) w)) /\
  (forall u, db_ok E (SelectLast satellite) = Ok u ->
     dates_of satellite (table w) = [] \/
     newest (dates_of satellite (table w)) = Some EmptyString ->
     start_date E satellite w = (Ok (now E satellite), w)).
Proof.
  split; [|split].
  - rewrite get_the_last_date_spec.
    destruct (db_ok E _); eexists; eexists; (split; [reflexivity|split; reflexivity]).
  - intros e He. rewrite start_date_spec, get_the_last_date_spec.
    unfold starting_cursor. rewrite He. split; reflexivity.
  - intros u Hu Hnone. rewrite start_date_spec. unfold starting_cursor. rewrite Hu.
    destruct Hnone as [-> | ->]; reflexivity.
Qed.

Lemma start_date_fallback_witness :
  let w := Demo.with_rows [("Landsat-8", "2024-03-04 00:00:00")]%string in
  start_date (Demo.demo Demo.plan_api (fun _ => Failed ClientError) Demo.db_down) "Landsat-8" w
    = (Ok Demo.clock, logged (ErrLastDate "Landsat-8" OperationalError) w) /\
  start_date (Demo.demo Demo.plan_api (fun _ => Failed ClientError) Demo.db_up) "Landsat-9" w
    = (Ok Demo.clock, w).
Proof.
  intros w. split.
  - destruct (start_date_fallback
                (Demo.demo Demo.plan_api (fun _ => Failed ClientError) Demo.db_down)
                "Landsat-8" w) as (_ & Hdown & _).
    apply (Hdown OperationalError). reflexivity.
  - destruct (start_date_fallback
                (Demo.demo Demo.plan_api (fun _ => Failed ClientError) Demo.db_up)
                "Landsat-9" w) as (_ & _ & Hnone).
    apply (Hnone tt); [reflexivity|]. left. reflexivity.
Defined.

(** C4, as stated, fails: with the stored date "garbage" the scheduler does
    not fall back to the clock; strptime raises ValueError and the exception
    leaves the cycle. *)
Lemma malformed_progress_raises :
  let E := Demo.demo Demo.plan_api (fun _ => Failed ClientError) Demo.db_up in
  let w := Demo.with_rows [("Landsat-8", "garbage")]%string in
  get_the_last_date E "Landsat-8" w = (Ok (Some "garbage"%string), w) /\
  strptime E "garbage" = Raise ValueError /\
  start_date E "Landsat-8" w = (Raise ValueError, w) /\
  fetch_and_save_data_cycle E w = (Raise ValueError, w).
Proof.
  cbv zeta. repeat split; reflexivity.
Qed.

End SchedulerFacts.

(** ** The order of the stored dates *)

Module OrderFacts.

Lemma digit_cases (n : Z) :
  n mod 10 = 0 \/ n mod 10 = 1 \/ n mod 10 = 2 \/ n mod 10 = 3 \/ n mod 10 = 4 \/
  n mod 10 = 5 \/ n mod 10 = 6 \/ n mod 10 = 7 \/ n mod 10 = 8 \/ n mod 10 = 9.
Proof. pose proof (Z.mod_pos_bound n 10 ltac:(lia)). lia. Qed.

(** Digits compare as their values. *)
Lemma digit_compare (a b : Z) :
  Ascii.compare (digit a) (digit b) = (a mod 10 ?= b mod 10).
Proof.
  unfold digit.
  destruct (digit_cases a) as [-> | [-> | [-> | [-> | [-> | [-> | [-> | [-> | [-> | ->]]]]]]]]];
  destruct (digit_cases b) as [-> | [-> | [-> | [-> | [-> | [-> | [-> | [-> | [-> | ->]]]]]]]]];
  reflexivity.
Qed.

Lemma compare_same_head (c : ascii) (s t : string) :
  String.compare (String c s) (String c t) = String.compare s t.
Proof.
  cbn [String.compare].
  replace (Ascii.compare c c) with Eq; [reflexivity|].
  symmetry. unfold Ascii.compare. apply N.compare_refl.
Qed.

(** Two zero-padded two-digit fields compare as their values, then the
    rest decides. *)
Lemma pad2_compare (a b : Z) (s t : string) :
  0 <= a < 100 -> 0 <= b < 100 ->
  String.compare (pad2 a ++ s) (pad2 b ++ t) =
    match a ?= b with
    | Eq => String.compare s t
    | c => c
    end.
Proof.
  intros Ha Hb. unfold pad2.
  change (String.compare
            (String (digit (a / 10)) (String (digit a) s))
            (String (digit (b / 10)) (String (digit b) t)) =
          match a ?= b with Eq => String.compare s t | c => c end).
  cbn [String.compare]. rewrite !digit_compare.
  destruct (Z.compare_spec ((a / 10) mod 10) ((b / 10) mod 10));
    destruct (Z.compare_spec (a mod 10) (b mod 10));
    destruct (Z.compare_spec a b); try reflexivity;
    exfalso; Z.div_mod_to_equations; lia.
Qed.

Lemma digit_mod (a b : Z) : a mod 10 = b mod 10 -> digit a = digit b.
Proof. intros H. unfold digit. now rewrite H. Qed.

Lemma pad4_pad2 (a : Z) (s : string) :
  (pad4 a ++ s = pad2 (a / 100) ++ pad2 (a mod 100) ++ s)%string.
Proof.
  unfold pad4, pad2.
  change (String (digit (a / 1000)) (String (digit (a / 100))
            (String (digit (a / 10)) (String (digit a) s))) =
          String (digit (a / 100 / 10)) (String (digit (a / 100))
            (String (digit (a mod 100 / 10)) (String (digit (a mod 100)) s)))).
  rewrite (digit_mod (a / 1000) (a / 100 / 10)),
    (digit_mod (a / 10) (a mod 100 / 10)), (digit_mod a (a mod 100));
    [reflexivity | | |]; Z.div_mod_to_equations; lia.
Qed.

Lemma pad4_compare (a b : Z) (s t : string) :
  0 <= a < 10000 -> 0 <= b < 10000 ->
  String.compare (pad4 a ++ s) (pad4 b ++ t) =
    match a ?= b with
    | Eq => String.compare s t
    | c => c
    end.
Proof.
  intros Ha Hb. rewrite !pad4_pad2.
  rewrite pad2_compare by (Z.div_mod_to_equations; lia).
  rewrite pad2_compare by (Z.div_mod_to_equations; lia).
  destruct (Z.compare_spec (a / 100) (b / 100));
    destruct (Z.compare_spec (a mod 100) (b mod 100));
    destruct (Z.compare_spec a b); try reflexivity;
    exfalso; Z.div_mod_to_equations; lia.
Qed.

Lemma strftime_seconds_shape (d : datetime) :
  1000 <= year d ->
  strftime_seconds d =
    (pad4 (year d) ++ String "-" (pad2 (month d) ++ String "-" (pad2 (day d) ++
       String " " (pad2 (hour d) ++ String ":" (pad2 (minute d) ++
         String ":" (pad2 (second d) ++ EmptyString))))))%string.
Proof.
  intros H. unfold strftime_seconds, strftime_date.
  rewrite (SchedulerFacts.year_text_four _ H). reflexivity.
Qed.

Ltac decide_field :=
  match goal with
  | |- match ?x ?= ?y with _ => _ end = _ =>
      destruct (Z.compare_spec x y);
      [ | symmetry; apply Z.compare_lt_iff; unfold stamp; lia
        | symmetry; apply Z.compare_gt_iff; unfold stamp; lia ]
  end.

(** From the year 1000 on, the texts save_to_db writes compare as the
    moments they denote.  (Before it the year has fewer digits and the text
    order is not the order of the dates.) *)
Lemma strftime_seconds_compare (a b : datetime) :
  valid a -> valid b -> 1000 <= year a -> 1000 <= year b ->
  String.compare (strftime_seconds a) (strftime_seconds b) = (stamp a ?= stamp b).
Proof.
  intros (Hya & Hma & Hda & Hha & Hmia & Hsa & _) (Hyb & Hmb & Hdb & Hhb & Hmib & Hsb & _)
         Ha Hb.
  pose proof (DatetimeFacts.days_in_month_bounds (year a) (month a)).
  pose proof (DatetimeFacts.days_in_month_bounds (year b) (month b)).
  unfold MAXYEAR in *.
  rewrite (strftime_seconds_shape a Ha), (strftime_seconds_shape b Hb).
  rewrite pad4_compare by lia. decide_field.
  rewrite compare_same_head, pad2_compare by lia. decide_field.
  rewrite compare_same_head, pad2_compare by lia. decide_field.
  rewrite compare_same_head, pad2_compare by lia. decide_field.
  rewrite compare_same_head, pad2_compare by lia. decide_field.
  rewrite compare_same_head, pad2_compare by lia. decide_field.
  symmetry. apply Z.compare_eq_iff. unfold stamp. lia.
Qed.

Lemma strftime_seconds_le (a b : datetime) :
  valid a -> valid b -> 1000 <= year a -> 1000 <= year b ->
  String.le (strftime_seconds a) (strftime_seconds b) <-> stamp a <= stamp b.
Proof.
  intros Ha Hb Hya Hyb. unfold String.le, String.leb.
  rewrite (strftime_seconds_compare a b Ha Hb Hya Hyb).
  destruct (Z.compare_spec (stamp a) (stamp b)); simpl; intuition lia.
Qed.

(** Among records written by save_to_db for the years 1000 to 9999, the
    newest is the latest. *)
Lemma newest_latest (ds : list datetime) (D : string) :
  Forall (fun d => valid d /\ 1000 <= year d) ds ->
  Scheduler.newest (map strftime_seconds ds) = Some D ->
  exists d, In d ds /\ D = strftime_seconds d /\
            Forall (fun x => stamp x <= stamp d) ds.
Proof.
  intros Hv HD.
  destruct (SchedulerFacts.newest_max _ _ HD) as [Hin Hmax].
  apply in_map_iff in Hin as (d & <- & Hd).
  exists d. split; [exact Hd|]. split; [reflexivity|].
  pose proof (proj1 (List.Forall_forall _ _) Hv) as Hv'.
  pose proof (proj1 (List.Forall_forall _ _) Hmax) as Hmax'.
  apply List.Forall_forall. intros x Hx.
  destruct (Hv' x Hx) as [Hvx Hyx]. destruct (Hv' d Hd) as [Hvd Hyd].
  refine (proj1 (strftime_seconds_le x d Hvx Hvd Hyx Hyd) _).
  apply Hmax'. apply in_map. exact Hx.
Qed.

(** Across the year 1000 the text order is not the order of the dates:
    the text of 999-12-31 sorts after the text of 1000-01-01. *)
Lemma three_digit_year_sorts_last :
  strftime_seconds (mk_datetime 999 12 31 0 0 0 0) = "999-12-31 00:00:00"%string /\
  String.leb (strftime_seconds (mk_datetime 1000 1 1 0 0 0 0))
             (strftime_seconds (mk_datetime 999 12 31 0 0 0 0)) = true /\
  stamp (mk_datetime 999 12 31 0 0 0 0) < stamp (mk_datetime 1000 1 1 0 0 0 0).
Proof. repeat split. Qed.

End OrderFacts.

(** ** Further properties of the range conversion *)

Module UtilMore.

Import Util.

(** A calendar date followed by the midnight marker is a midnight stamp. *)
Lemma stamp_of_iso (a : string) :
  is_iso_date a = true -> is_midnight_stamp (a ++ extra_part)%string = true.
Proof.
  unfold is_iso_date.
  destruct a as [|c1 [|c2 [|c3 [|c4 [|c5 [|c6 [|c7 [|c8 [|c9 [|c10 [|c11 a]]]]]]]]]]];
    try discriminate.
  intros H. unfold is_midnight_stamp.
  change (substring 0 10
            (String c1 (String c2 (String c3 (String c4 (String c5 (String c6
               (String c7 (String c8 (String c9 (String c10 EmptyString)))))))))
             ++ extra_part))
    with (String c1 (String c2 (String c3 (String c4 (String c5 (String c6
               (String c7 (String c8 (String c9 (String c10 EmptyString)))))))))).
  unfold is_iso_date. rewrite H. reflexivity.
Qed.

(** X1: convert_to_rfc3339 raises exactly on the inputs without '/', and
    then IndexError; on every other input it returns. *)
Theorem convert_to_rfc3339_raises (s : string) (e : exn) :
  convert_to_rfc3339 s = Raise e <-> e = IndexError /\ count_char slash s = 0%nat.
Proof.
  split.
  - unfold convert_to_rfc3339. pose proof (split_length slash s) as Hlen.
    destruct (split slash s) as [|d0 [|d1 rest]]; simpl in *.
    + discriminate.
    + intros [= <-]. split; [reflexivity|lia].
    + discriminate.
  - intros [-> Hs]. unfold convert_to_rfc3339.
    rewrite (split_no_sep _ _ Hs). reflexivity.
Qed.

Lemma convert_to_rfc3339_raises_witness :
  convert_to_rfc3339 "20230101" = Raise IndexError /\
  (forall e, convert_to_rfc3339 "2023-01-01/" <> Raise e).
Proof.
  split.
  - apply (proj2 (convert_to_rfc3339_raises "20230101" IndexError)).
    split; reflexivity.
  - intros e H.
    destruct (proj1 (convert_to_rfc3339_raises "2023-01-01/" e) H) as [_ Hc].
    discriminate Hc.
Defined.

(** X2: on two slash-free segments joined by '/', the result is the two
    segments, each followed by T00:00:00Z, joined by '/': splitting it on
    '/' gives back exactly the two stamped segments, and it is a well-formed
    range when both segments are calendar dates. *)
Theorem convert_to_rfc3339_two_segments (a b : string) :
  count_char slash a = 0%nat -> count_char slash b = 0%nat ->
  exists out,
    convert_to_rfc3339 (a ++ "/" ++ b) = Ok out /\
    out = (a ++ extra_part ++ "/" ++ b ++ extra_part)%string /\
    split slash out = [(a ++ extra_part)%string; (b ++ extra_part)%string] /\
    (is_iso_date a = true -> is_iso_date b = true -> well_formed_range out = true).
Proof.
  intros Ha Hb. eexists. split; [|split; [reflexivity|split]].
  - unfold convert_to_rfc3339.
    change (a ++ "/" ++ b)%string with (a ++ String slash b)%string.
    rewrite (split_app _ _ _ Ha), (split_no_sep _ _ Hb). reflexivity.
  - apply (UtilFacts.split_of_range a b Ha Hb).
  - intros Hia Hib. unfold well_formed_range.
    rewrite (UtilFacts.split_of_range a b Ha Hb).
    now rewrite (stamp_of_iso a Hia), (stamp_of_iso b Hib).
Qed.

Lemma convert_to_rfc3339_two_segments_witness :
  exists out,
    convert_to_rfc3339 "2024-01-01/2024-01-02" = Ok out /\
    split slash out = ["2024-01-01T00:00:00Z"; "2024-01-02T00:00:00Z"]%string /\
    well_formed_range out = true.
Proof.
  destruct (convert_to_rfc3339_two_segments "2024-01-01" "2024-01-02")
    as (out & Hrun & _ & Hsplit & Hwf); [reflexivity|reflexivity|].
  exists out. split; [exact Hrun|]. split; [exact Hsplit|].
  apply Hwf; reflexivity.
Defined.

End UtilMore.

(** ** Further properties of the worker *)

Module WorkerMore.

Import Worker.

Section Frame.

Variable E : env.

(** The catalog search touches no store; it only logs. *)
Lemma get_landsat_items_frame (lon_ lat_ range_ : value) (lo hi : Z)
    (w w2 : world) (r : res value) :
  get_landsat_items E lon_ lat_ range_ lo hi w = (r, w2) ->
  kv w2 = kv w /\ request_queue w2 = request_queue w /\
  table w2 = table w /\ sent w2 = sent w.
Proof.
  unfold get_landsat_items, bind, lift, try_except, logging, ret.
  destruct (search_payload lon_ lat_ range_ lo hi) as [payload|e];
    [|intros [= <- <-]; auto].
  destruct (http_post E payload) as [e|status body];
    [intros [= <- <-]; auto|].
  destruct (status =? 200); [|intros [= <- <-]; auto].
  destruct body as [data|e]; [|intros [= <- <-]; auto].
  destruct (getitem data "features") as [found|e];
    [|intros [= <- <-]; auto].
  destruct (truthy found); intros [= <- <-]; auto.
Qed.

(** What cannot be built raises out of get_landsat_items. *)
Lemma get_landsat_items_unbuilt (lon_ lat_ range_ : value) (lo hi : Z) (w : world) (e : exn) :
  search_payload lon_ lat_ range_ lo hi = Raise e ->
  get_landsat_items E lon_ lat_ range_ lo hi w = (Raise e, w).
Proof.
  intros H. unfold get_landsat_items, bind, lift. now rewrite H.
Qed.

Lemma unbuildable_payload (r : request) :
  unbuildable r ->
  exists e, search_payload (lon r) (lat r) (time_range r) (min_cloud r) (max_cloud r) = Raise e.
Proof.
  unfold search_payload, build_square_of.
  intros [e H | e H | H | s H Hs].
  - rewrite H. simpl. eauto.
  - destruct (as_float (lon r)); simpl; [rewrite H; simpl|]; eauto.
  - destruct (as_float (lon r)); simpl; [|eauto].
    destruct (as_float (lat r)); simpl; [|eauto].
    destruct (time_range r); simpl; eauto. now destruct (H s).
  - destruct (as_float (lon r)); simpl; [|eauto].
    destruct (as_float (lat r)); simpl; [|eauto].
    rewrite H. simpl. unfold Util.convert_to_rfc3339.
    rewrite (split_no_sep _ _ Hs). simpl. eauto.
Qed.

(** One pass of the worker, whatever the queue, the entry and the answer. *)
Lemma worker_iteration_effect (w : world) :
  exists w',
    worker_iteration E w = (Ok tt, w') /\
    request_queue w' = tl (request_queue w) /\
    table w' = table w /\ sent w' = sent w /\
    (kv w' = kv w \/
     exists request_id val, kv w' = <[result_key E request_id := (val, 120)]> (kv w)).
Proof.
  destruct (request_queue w) as [|raw q] eqn:Hq.
  - rewrite (WorkerFacts.worker_iteration_idle E w Hq).
    eexists; split; [reflexivity|]. rewrite Hq. auto.
  - destruct (String.eqb_spec raw EmptyString) as [-> | Hraw].
    + rewrite (WorkerFacts.worker_iteration_blank E w q Hq).
      eexists; split; [reflexivity|]. simpl. rewrite Hq. auto.
    + rewrite (WorkerFacts.worker_iteration_popped E w raw q Hq Hraw).
      destruct (decode E raw) as [r|e].
      * destruct (get_landsat_items E _ _ _ _ _ (popped w)) as [[items|e] w2] eqn:Hrun;
          destruct (get_landsat_items_frame _ _ _ _ _ _ _ _ Hrun) as (Hkv & Hqq & Ht & Hs);
          (eexists; split; [reflexivity|]);
          cbn [kv request_queue table sent logged stored];
          rewrite Hkv, Hqq, Ht, Hs; cbn [kv request_queue table sent popped];
          rewrite Hq.
        -- repeat split. right. eexists; eexists; reflexivity.
        -- repeat split. now left.
      * eexists; split; [reflexivity|]. simpl. rewrite Hq. auto.
Qed.

End Frame.

(** X3: a request that decodes but for which no search payload can be built
    (a coordinate that is not a number, a time range that is not text or has
    no '/') is dropped like an undecodable one: the exception leaves
    get_landsat_items, the worker catches and logs it, and no key is written. *)
Theorem worker_drops_unbuildable (E : env) (w : world) (raw : string) (q : list string)
    (r : request) :
  request_queue w = raw :: q -> raw <> EmptyString ->
  decode E raw = Ok r -> unbuildable r ->
  exists e,
    search_payload (lon r) (lat r) (time_range r) (min_cloud r) (max_cloud r) = Raise e /\
    worker_iteration E w = (Ok tt, logged (ErrQueue e) (popped w)).
Proof.
  intros Hq Hraw Hd Hbad.
  destruct (unbuildable_payload r Hbad) as [e He].
  exists e. split; [exact He|].
  rewrite (WorkerFacts.worker_iteration_popped E w raw q Hq Hraw), Hd.
  now rewrite (get_landsat_items_unbuilt E _ _ _ _ _ _ e He).
Qed.

Lemma worker_drops_unbuildable_witness :
  let E := mk_env (fun _ => Ok (VDict [("request_id"%string, VStr "abc");
                                       ("lon"%string, VStr "east");
                                       ("lat"%string, VFloat 20);
                                       ("min_cloud"%string, VInt 0);
                                       ("max_cloud"%string, VInt 50);
                                       ("time_range"%string, VStr "2024-01-01")]))
             Demo.dumps Demo.int_of_digits Demo.str_value Demo.strptime_padded
             (fun _ => Demo.clock) "KEY" Demo.plan_api
             (fun _ => Response 200 (Demo.features_body [Demo.f1])) Demo.db_up in
  worker_iteration E (Demo.queued "request") =
    (Ok tt, logged (ErrQueue TypeError) (popped (Demo.queued "request"))).
Proof.
  intros E.
  destruct (worker_drops_unbuildable E (Demo.queued "request") "request" []
              (mk_request (VStr "abc") (VStr "east") (VFloat 20) 0 50 (VStr "2024-01-01")))
    as (e & He & Hrun); [reflexivity|discriminate|reflexivity| |].
  - apply (bad_lon _ TypeError). reflexivity.
  - injection He as <-. exact Hrun.
Defined.

(** X4: one pass of the worker never raises, takes at most the front entry
    off the queue, and leaves the progress table and the GET trace alone; a
    cache key that does not begin with result: keeps its entry, and an entry
    that is new or changed carries the 120-second expiry. *)
Theorem worker_iteration_frame (E : env) (w : world) :
  exists w',
    worker_iteration E w = (Ok tt, w') /\
    request_queue w' = tl (request_queue w) /\
    table w' = table w /\ sent w' = sent w /\
    (forall k, (forall x, k <> ("result:" ++ x)%string) -> kv w' !! k = kv w !! k) /\
    (forall k v ex, kv w' !! k = Some (v, ex) -> kv w !! k = Some (v, ex) \/ ex = 120).
Proof.
  destruct (worker_iteration_effect E w) as (w' & Hrun & Hq & Ht & Hs & Hkv).
  exists w'. repeat split; try assumption.
  - intros k Hk. destruct Hkv as [-> | (request_id & val & ->)]; [reflexivity|].
    apply lookup_insert_ne. intros <-. now apply (Hk (format_value E request_id)).
  - intros k v ex. destruct Hkv as [-> | (request_id & val & ->)]; [now left|].
    rewrite lookup_insert. case_decide.
    + intros [= <- <-]. now right.
    + now left.
Qed.

(** X5: the decoding of a queue entry raises exactly when the text is not
    JSON, or decodes to something that is not an object, or the object
    lacks one of the six fields, or one of the two cloud bounds is rejected
    by int(). *)
Theorem decode_raises_iff (E : env) (raw : string) :
  (exists e, decode E raw = Raise e) <->
  unprocessable E raw \/
  (exists v, json_loads E raw = Ok v /\ forall d, v <> VDict d).
Proof.
  split.
  - intros [e He]. unfold decode in He.
    destruct (json_loads E raw) as [v|e0] eqn:Hl; [|left; now apply (invalid_json E raw e0)].
    destruct v as [ | b | n | x | s | l | d];
      try (right; eexists; split; [reflexivity|discriminate]).
    left. cbn [res_bind getitem] in He.
    destruct (assoc "request_id" d) eqn:H1;
      [|apply (missing_field E raw d "request_id" Hl); [simpl; tauto|exact H1]].
    cbn [res_bind] in He.
    destruct (assoc "lon" d) eqn:H2;
      [|apply (missing_field E raw d "lon" Hl); [simpl; tauto|exact H2]].
    cbn [res_bind] in He.
    destruct (assoc "lat" d) eqn:H3;
      [|apply (missing_field E raw d "lat" Hl); [simpl; tauto|exact H3]].
    cbn [res_bind] in He.
    destruct (assoc "min_cloud" d) as [lo|] eqn:H4;
      [|apply (missing_field E raw d "min_cloud" Hl); [simpl; tauto|exact H4]].
    cbn [res_bind] in He.
    destruct (py_int E lo) eqn:H5;
      [|apply (bad_cloud_bound E raw d "min_cloud" lo e0 Hl); [simpl; tauto|exact H4|exact H5]].
    cbn [res_bind] in He.
    destruct (assoc "max_cloud" d) as [hi|] eqn:H6;
      [|apply (missing_field E raw d "max_cloud" Hl); [simpl; tauto|exact H6]].
    cbn [res_bind] in He.
    destruct (py_int E hi) eqn:H7;
      [|apply (bad_cloud_bound E raw d "max_cloud" hi e0 Hl); [simpl; tauto|exact H6|exact H7]].
    cbn [res_bind] in He.
    destruct (assoc "time_range" d) eqn:H8;
      [|apply (missing_field E raw d "time_range" Hl); [simpl; tauto|exact H8]].
    discriminate He.
  - intros [Hbad | (v & Hl & Hv)].
    + now apply WorkerFacts.unprocessable_decode.
    + unfold decode. rewrite Hl.
      destruct v; try (eexists; reflexivity). now destruct (Hv d).
Qed.

Lemma decode_raises_iff_witness :
  (exists e, decode (Demo.demo Demo.plan_api (fun _ => Failed ClientError) Demo.db_up)
               Demo.raw_short = Raise e) /\
  ~ unprocessable (Demo.demo Demo.plan_api (fun _ => Failed ClientError) Demo.db_up)
      Demo.raw_abc.
Proof.
  split.
  - apply (proj2 (decode_raises_iff _ Demo.raw_short)). left.
    apply (missing_field _ _ [("request_id"%string, VStr "abc"); ("lon"%string, VFloat 10);
         ("lat"%string, VFloat 20); ("min_cloud"%string, VInt 0);
         ("max_cloud"%string, VInt 50)] "time_range"%string); [reflexivity| |reflexivity].
    simpl. tauto.
  - intros Hbad.
    destruct (proj2 (decode_raises_iff
                (Demo.demo Demo.plan_api (fun _ => Failed ClientError) Demo.db_up)
                Demo.raw_abc) (or_introl Hbad)) as [e He].
    discriminate He.
Defined.

Lemma skipn_tl {A} (n : nat) (l : list A) : skipn (S n) l = skipn n (tl l).
Proof. destruct l; [now destruct n|reflexivity]. Qed.

(** X6: n passes of the worker return normally and consume exactly the
    first n entries of the queue (all of it when it is shorter), in order;
    the rest of the queue, the progress table and the GET trace are as they
    were. *)
Theorem worker_ticks_queue (E : env) (n : nat) :
  forall w, exists w',
    worker_ticks E n w = (Ok tt, w') /\
    request_queue w' = skipn n (request_queue w) /\
    table w' = table w /\ sent w' = sent w.
Proof.
  induction n as [|n IH]; intros w.
  - exists w. repeat split; reflexivity.
  - destruct (worker_iteration_effect E w) as (w1 & Hrun & Hq & Ht & Hs & _).
    destruct (IH w1) as (w' & Hrun' & Hq' & Ht' & Hs').
    exists w'. split; [|split; [|split]].
    + cbn [worker_ticks]. unfold bind. now rewrite Hrun.
    + rewrite Hq', Hq. symmetry. apply skipn_tl.
    + congruence.
    + congruence.
Qed.


(** X17: a 200 answer whose body cannot be decoded, or whose decoded body
    has no features entry (or is not an object), takes the except branch of
    get_landsat_items: the worker logs the error and caches the
    serialisation of None under result:<request id>, with the 120-second
    expiry, not the not-found marker. *)
Theorem worker_caches_none_on_bad_body (E : env) (w : world) (raw : string) (q : list string)
    (r : request) (payload : value) (body : res value) (e : exn) :
  request_queue w = raw :: q -> raw <> EmptyString ->
  decode E raw = Ok r ->
  search_payload (lon r) (lat r) (time_range r) (min_cloud r) (max_cloud r) = Ok payload ->
  http_post E payload = Response 200 body ->
  res_bind body (fun data => getitem data "features") = Raise e ->
  exists w',
    worker_iteration E w = (Ok tt, w') /\
    kv w' = <[result_key E (request_id r) := (json_dumps E VNone, 120)]> (kv w) /\
    request_queue w' = q /\
    logs w' = InfoProcessed (request_id r) :: ErrRetrieve (lon r) (lat r) e :: logs w.
Proof.
  intros Hq Hraw Hd Hp Hpost Hbody.
  rewrite (WorkerFacts.worker_iteration_popped E w raw q Hq Hraw), Hd.
  assert (Hrun : get_landsat_items E (lon r) (lat r) (time_range r) (min_cloud r)
                   (max_cloud r) (popped w)
                 = (Ok VNone, logged (ErrRetrieve (lon r) (lat r) e) (popped w))).
  { unfold get_landsat_items, bind, lift, try_except. rewrite Hp, Hpost.
    cbn -[getitem truthy].
    destruct body as [data|e0]; cbn [res_bind] in Hbody.
    - rewrite Hbody. reflexivity.
    - injection Hbody as ->. reflexivity. }
  rewrite Hrun. eexists; split; [reflexivity|]. simpl. rewrite Hq. repeat split.
Qed.

Lemma worker_caches_none_on_bad_body_witness :
  let E := Demo.demo Demo.plan_api (fun _ => Response 200 (Ok (VDict []))) Demo.db_up in
  exists w',
    worker_iteration E (Demo.queued Demo.raw_abc) = (Ok tt, w') /\
    kv w' !! "result:abc"%string = Some ("null"%string, 120) /\
    logs w' = [InfoProcessed (VStr "abc"); ErrRetrieve (VFloat 10) (VFloat 20) KeyError].
Proof.
  intros E.
  destruct (worker_caches_none_on_bad_body E (Demo.queued Demo.raw_abc)
      Demo.raw_abc [] (mk_request (VStr "abc") (VFloat 10) (VFloat 20) 0 50
                         (VStr "2024-01-01/2024-01-02"))
      (payload_of (Util.build_square 10 20 stac_delta)
         "2024-01-01T00:00:00Z/2024-01-02T00:00:00Z" 0 50)
      (Ok (VDict [])) KeyError)
      as (w' & Hrun & Hkv & _ & Hlogs); try reflexivity; [discriminate|].
  exists w'. split; [exact Hrun|]. split; [rewrite Hkv; reflexivity|exact Hlogs].
Defined.

End WorkerMore.

(** ** Further properties of the scheduler *)

Module SchedulerMore.

Import Scheduler.

Lemma grown_same (sats : list string) (w w' : world) :
  request_queue w' = request_queue w -> table w' = table w -> kv w' = kv w ->
  grown sats 0 w w'.
Proof.
  intros Hq Ht Hkv. split; [exact Hq|]. split; [|split].
  - exists []. rewrite app_nil_r. repeat split; [exact Ht|reflexivity|constructor].
  - intros k _. now rewrite Hkv.
  - intros k v H. left. now rewrite <- Hkv.
Qed.

Lemma grown_trans (sats : list string) (n m : nat) (w w1 w2 : world) :
  grown sats n w w1 -> grown sats m w1 w2 -> grown sats (n + m) w w2.
Proof.
  intros (Hq1 & (new1 & Ht1 & Hl1 & Hf1) & Hk1 & Hv1)
         (Hq2 & (new2 & Ht2 & Hl2 & Hf2) & Hk2 & Hv2).
  split; [congruence|]. split; [|split].
  - exists (new1 ++ new2). split; [|split].
    + rewrite Ht2, Ht1. now rewrite <- app_assoc.
    + rewrite length_app. lia.
    + apply Forall_app. now split.
  - intros k Hk. rewrite (Hk2 k Hk). now apply Hk1.
  - intros k v H. destruct (Hv2 k v H) as [H1 | H1]; [now apply Hv1|now right].
Qed.

Lemma grown_weaken (sats sats' : list string) (n m : nat) (w w' : world) :
  (forall s, In s sats -> In s sats') -> (n <= m)%nat ->
  grown sats n w w' -> grown sats' m w w'.
Proof.
  intros Hs Hn (Hq & (new & Ht & Hl & Hf) & Hk & Hv).
  split; [exact Hq|]. split; [|split; assumption].
  exists new. repeat split; [exact Ht|lia|].
  eapply Forall_impl; [exact Hf|]. intros r Hr. now apply Hs.
Qed.

Section Invariant.

Variable E : env.

(** One probe: at most one new row, for its satellite, and at most one
    cache entry, under its date. *)
Lemma probe_grown (satellite : string) (date : datetime) (w : world) :
  exists w', probe E satellite date w = (Ok tt, w') /\ grown [satellite] 1 w w'.
Proof.
  destruct (http_get E (mk_params (API_KEY E) satellite (strftime_midnight date)))
    as [e | status body] eqn:Hget.
  - unfold probe, try_except, bind, lift, record_get. rewrite Hget.
    eexists; split; [reflexivity|].
    apply (grown_weaken [satellite] _ 0); auto. now apply grown_same.
  - destruct (Z.eqb_spec status 200) as [-> | Hs].
    + destruct body as [data | e].
      * destruct (get data "features") as [found | e] eqn:Hfound.
        -- destruct (truthy found) eqn:Ht.
           ++ rewrite (SchedulerFacts.probe_saved E _ _ _ data found Hget Hfound Ht).
              eexists; split; [reflexivity|].
              destruct (SchedulerFacts.save_to_db_effect E found date satellite
                          (requested (mk_params (API_KEY E) satellite
                                        (strftime_midnight date)) w)) as [Hkv Htable].
              rewrite SchedulerFacts.save_to_db_spec in *.
              split; [destruct (db_ok E _); reflexivity|]. split; [|split].
              ** destruct (db_ok E _); cbn [table logged stored snd appended requested].
                 --- exists [(satellite, strftime_seconds date)].
                     repeat split; [reflexivity|]. constructor; [now left|constructor].
                 --- exists []. rewrite app_nil_r. repeat split; [simpl; lia|constructor].
              ** intros k Hk. cbn [kv logged stored]. rewrite Hkv. cbn [kv requested].
                 apply lookup_insert_ne. intros <-. exact (Hk date eq_refl).
              ** intros k v. cbn [kv logged stored]. rewrite Hkv. cbn [kv requested].
                 rewrite lookup_insert. case_decide.
                 --- intros [= <-]. right. subst k.
                     split; [now exists date|reflexivity].
                 --- now left.
           ++ rewrite (SchedulerFacts.probe_no_data E _ _ _ data found Hget Hfound Ht).
              eexists; split; [reflexivity|].
              apply (grown_weaken [satellite] _ 0); auto. now apply grown_same.
        -- unfold probe, try_except, bind, lift, record_get. rewrite Hget.
           cbn -[get getitem truthy save_to_db strftime_date strftime_midnight Z.mul].
           rewrite Hfound.
           eexists; split; [reflexivity|].
           apply (grown_weaken [satellite] _ 0); auto. now apply grown_same.
      * unfold probe, try_except, bind, lift, record_get. rewrite Hget.
        eexists; split; [reflexivity|].
        apply (grown_weaken [satellite] _ 0); auto. now apply grown_same.
    + apply Z.eqb_neq in Hs.
      unfold probe, try_except, bind, lift, record_get. rewrite Hget, Hs.
      eexists; split; [reflexivity|].
      apply (grown_weaken [satellite] _ 0); auto. now apply grown_same.
Qed.

(** A window of [n] iterations, whether it completes or the cursor
    overflows on the way. *)
Lemma window_grown (satellite : string) (n : nat) :
  forall d w, grown [satellite] n w (snd (window E n satellite d w)).
Proof.
  induction n as [|n IH]; intros d w.
  - now apply grown_same.
  - cbn [window]. unfold bind, lift.
    destruct (add_day d) as [d'|e].
    + destruct (probe_grown satellite d' w) as (w1 & Hp & Hg). rewrite Hp.
      apply (grown_trans _ 1 n w w1); [exact Hg|apply IH].
    + apply (grown_weaken [satellite] _ 0); auto; [lia|]. now apply grown_same.
Qed.

Lemma sweep_satellite_grown (satellite : string) (w : world) :
  grown [satellite] 100 w (snd (sweep_satellite E satellite w)).
Proof.
  unfold sweep_satellite, bind. rewrite SchedulerFacts.start_date_spec.
  set (w0 := match db_ok E (SelectLast satellite) with
             | Ok _ => w
             | Raise e => logged (ErrLastDate satellite e) w
             end).
  assert (H0 : grown [satellite] 0 w w0).
  { subst w0. destruct (db_ok E _); now apply grown_same. }
  destruct (starting_cursor E w satellite) as [d|e].
  - apply (grown_trans _ 0 100 w w0); [exact H0|apply window_grown].
  - apply (grown_weaken [satellite] _ 0); auto. lia.
Qed.

Lemma for_each_grown (l : list string) :
  forall w, grown l (100 * length l) w (snd (for_each l (sweep_satellite E) w)).
Proof.
  induction l as [|x l IH]; intros w.
  - now apply grown_same.
  - cbn [for_each]. unfold bind.
    pose proof (sweep_satellite_grown x w) as Hx.
    destruct (sweep_satellite E x w) as [[[]|e] w1]; cbn [snd] in *.
    + replace (100 * length (x :: l))%nat with (100 + 100 * length l)%nat by (simpl; lia).
      apply (grown_trans _ 100 _ w w1).
      * apply (grown_weaken [x] _ 100); auto. intros s [<- | []]. now left.
      * apply (grown_weaken l _ (100 * length l)); auto. intros s Hs. now right.
    + apply (grown_weaken [x] _ 100); auto; [|simpl; lia].
      intros s [<- | []]. now left.
Qed.

Lemma cycle_grown (w : world) :
  grown SATELLITES 200 w (snd (fetch_and_save_data_cycle E w)).
Proof. apply (for_each_grown SATELLITES w). Qed.

(** A probe that finds no features stores nothing. *)
Lemma probe_quiet (satellite : string) (date : datetime) (w : world) :
  finds_features E (mk_params (API_KEY E) satellite (strftime_midnight date)) = false ->
  exists w', probe E satellite date w = (Ok tt, w') /\ kv w' = kv w /\ table w' = table w.
Proof.
  unfold finds_features.
  destruct (http_get E (mk_params (API_KEY E) satellite (strftime_midnight date)))
    as [e | status body] eqn:Hget.
  - intros _. unfold probe, try_except, bind, lift, record_get. rewrite Hget.
    eexists; split; [reflexivity|]. split; reflexivity.
  - destruct (Z.eqb_spec status 200) as [-> | Hs].
    + destruct body as [data | e].
      * destruct (get data "features") as [found | e] eqn:Hfound.
        -- cbn [andb Z.eqb Pos.eqb]. intros Ht.
           rewrite (SchedulerFacts.probe_no_data E _ _ _ data found Hget Hfound Ht).
           eexists; split; [reflexivity|]. split; reflexivity.
        -- intros _. unfold probe, try_except, bind, lift, record_get. rewrite Hget.
           cbn -[get getitem truthy save_to_db strftime_date strftime_midnight Z.mul].
           rewrite Hfound.
           eexists; split; [reflexivity|]. split; reflexivity.
      * intros _. unfold probe, try_except, bind, lift, record_get. rewrite Hget.
        eexists; split; [reflexivity|]. split; reflexivity.
    + intros _. apply Z.eqb_neq in Hs.
      unfold probe, try_except, bind, lift, record_get. rewrite Hget, Hs.
      eexists; split; [reflexivity|]. split; reflexivity.
Qed.

Lemma window_quiet (satellite : string) (n : nat) :
  (forall p, finds_features E p = false) ->
  forall d w, kv (snd (window E n satellite d w)) = kv w /\
              table (snd (window E n satellite d w)) = table w.
Proof.
  intros Hnone. induction n as [|n IH]; intros d w; [split; reflexivity|].
  cbn [window]. unfold bind, lift.
  destruct (add_day d) as [d'|e]; [|split; reflexivity].
  destruct (probe_quiet satellite d' w (Hnone _)) as (w1 & Hp & Hkv & Ht).
  rewrite Hp. destruct (IH d' w1) as [Hkv' Ht']. split; congruence.
Qed.

Lemma sweep_satellite_quiet (satellite : string) (w : world) :
  (forall p, finds_features E p = false) ->
  kv (snd (sweep_satellite E satellite w)) = kv w /\
  table (snd (sweep_satellite E satellite w)) = table w.
Proof.
  intros Hnone. unfold sweep_satellite, bind. rewrite SchedulerFacts.start_date_spec.
  set (w0 := match db_ok E (SelectLast satellite) with
             | Ok _ => w
             | Raise e => logged (ErrLastDate satellite e) w
             end).
  assert (H0 : kv w0 = kv w /\ table w0 = table w).
  { subst w0. destruct (db_ok E _); split; reflexivity. }
  destruct (starting_cursor E w satellite) as [d|e]; [|exact H0].
  destruct (window_quiet satellite 100 Hnone d w0) as [Hkv Ht].
  destruct H0. split; congruence.
Qed.

Lemma for_each_quiet (l : list string) :
  (forall p, finds_features E p = false) ->
  forall w, kv (snd (for_each l (sweep_satellite E) w)) = kv w /\
            table (snd (for_each l (sweep_satellite E) w)) = table w.
Proof.
  intros Hnone. induction l as [|x l IH]; intros w; [split; reflexivity|].
  cbn [for_each]. unfold bind.
  pose proof (sweep_satellite_quiet x w Hnone) as Hx.
  destruct (sweep_satellite E x w) as [[[]|e] w1]; cbn [snd] in *; [|exact Hx].
  destruct (IH w1) as [Hkv Ht]. destruct Hx. split; congruence.
Qed.

(** Rows added for other satellites do not change a satellite's dates. *)
Lemma dates_of_grown (sats : list string) (n : nat) (w w' : world) (s : string) :
  grown sats n w w' -> ~ In s sats -> dates_of s (table w') = dates_of s (table w).
Proof.
  intros (_ & (new & Ht & _ & Hf) & _) Hs. rewrite Ht, SchedulerFacts.dates_of_app.
  clear Ht.
  assert (Hnil : dates_of s new = []).
  { unfold dates_of. induction Hf as [|r rs Hr _ IH]; [reflexivity|].
    simpl. destruct (String.eqb_spec (fst r) s) as [<- | _]; [contradiction|exact IH]. }
  rewrite Hnil. apply app_nil_r.
Qed.

(** The cycle raises as soon as one satellite's newest record is rejected. *)
Lemma for_each_unparsable (l : list string) :
  forall w s (u : unit) D e,
    In s l -> db_ok E (SelectLast s) = Ok u ->
    newest (dates_of s (table w)) = Some D -> D <> EmptyString ->
    strptime E D = Raise e ->
    exists e', fst (for_each l (sweep_satellite E) w) = Raise e'.
Proof.
  induction l as [|x l IH]; intros w s u D e Hin Hu HD HDne He; [destruct Hin|].
  cbn [for_each]. unfold bind.
  pose proof (sweep_satellite_grown x w) as Hg.
  destruct (sweep_satellite E x w) as [[[]|e1] w1] eqn:Hx; cbn [snd fst] in *; [|eauto].
  destruct (String.eqb_spec x s) as [-> | Hne].
  - destruct (SchedulerFacts.start_date_unparsable E s w u D e Hu HD HDne He) as [_ Hr].
    rewrite Hr in Hx. discriminate.
  - destruct Hin as [-> | Hin]; [contradiction|].
    apply (IH w1 s u D e Hin Hu); auto.
    rewrite (dates_of_grown [x] 100 w w1 s Hg); [exact HD|].
    intros [-> | []]. contradiction.
Qed.

(** A window that runs into the end of the calendar. *)
Lemma window_overflow (satellite : string) (n : nat) :
  forall d w, valid d -> MAXORDINAL < toordinal d + Z.of_nat n ->
  exists w',
    window E n satellite d w = (Raise OverflowError, w') /\
    sent w' = rev (map (params_of E satellite) (cursors n d)) ++ sent w /\
    Z.of_nat (length (cursors n d)) = MAXORDINAL - toordinal d.
Proof.
  induction n as [|n IH]; intros d w Hv Hord.
  - pose proof (DatetimeFacts.toordinal_max d Hv). simpl in Hord. lia.
  - destruct (Z.eq_dec (toordinal d) MAXORDINAL) as [Heq | Hlt].
    + exists w. cbn [window cursors]. unfold bind, lift.
      rewrite (DatetimeFacts.add_day_overflow d Hv) by lia.
      repeat split. simpl. lia.
    + pose proof (DatetimeFacts.toordinal_max d Hv) as Hmax.
      destruct (DatetimeFacts.add_day_ok d Hv) as [d' Hd']; [lia|].
      destruct (DatetimeFacts.add_day_spec d d' Hv Hd') as (Hv' & Ho' & _).
      destruct (SchedulerFacts.probe_frame E satellite d' w) as (w1 & Hp & Hs1 & _).
      destruct (IH d' w1 Hv') as (w' & Hw & Hs & Hlen); [lia|].
      exists w'. split; [|split].
      * cbn [window]. unfold bind, lift. rewrite Hd', Hp. exact Hw.
      * cbn [cursors]. rewrite Hd', Hs, Hs1. cbn [map rev].
        now rewrite <- app_assoc.
      * cbn [cursors]. rewrite Hd'. cbn [length]. lia.
Qed.

End Invariant.

Lemma result_key_not_iso (x : string) : Util.is_iso_date ("result:" ++ x) = false.
Proof. destruct x as [|a [|b [|c [|d x]]]]; reflexivity. Qed.

(** The text of a date begins with a digit. *)
Lemma strftime_date_head (c : datetime) :
  exists n rest, strftime_date c = String (digit n) rest.
Proof.
  unfold strftime_date, year_text.
  destruct (year c <? 10); [eexists; eexists; reflexivity|].
  destruct (year c <? 100); [eexists; eexists; reflexivity|].
  destruct (year c <? 1000); eexists; eexists; reflexivity.
Qed.

Lemma result_key_not_date (x : string) (c : datetime) :
  ("result:" ++ x)%string <> strftime_date c.
Proof.
  destruct (strftime_date_head c) as (n & rest & ->).
  intros H. injection H as Hr _.
  pose proof (SchedulerFacts.is_digit_digit n) as Hd. rewrite <- Hr in Hd.
  discriminate Hd.
Qed.

Lemma newest_app_max (l : list string) (x : string) :
  Forall (fun y => String.le y x) l -> newest (l ++ [x]) = Some x.
Proof.
  induction 1 as [|y l Hy _ IH]; [reflexivity|].
  cbn [app newest]. rewrite IH. unfold String.le in Hy.
  destruct (String.leb y x); [reflexivity|contradiction].
Qed.

Lemma strftime_seconds_nonempty (d : datetime) : strftime_seconds d <> EmptyString.
Proof.
  unfold strftime_seconds. destruct (strftime_date_head d) as (n & rest & ->).
  discriminate.
Qed.

(** X7: a probe whose GET fails, comes back with a status other than 200,
    or comes back 200 with a body that cannot be decoded or is not an
    object, logs that one error and returns normally; it stores nothing. *)
Theorem probe_error_logged (E : env) (satellite : string) (date : datetime) (w : world)
    (ev : log_event) :
  probe_error E satellite date = Some ev ->
  probe E satellite date w = (Ok tt, logged ev (requested (params_of E satellite date) w)).
Proof.
  unfold probe_error, params_of, probe, try_except, bind, lift, record_get.
  destruct (http_get E _) as [e | status body]; [now intros [= <-]|].
  destruct (status =? 200); [|now intros [= <-]].
  destruct body as [data | e]; [|now intros [= <-]].
  cbn -[get getitem truthy save_to_db strftime_date strftime_midnight Z.mul].
  destruct (get data "features") as [found | e]; [discriminate|now intros [= <-]].
Qed.

Lemma probe_error_logged_witness :
  let E := Demo.demo (fun _ => Response 503 (Raise JSONDecodeError))
             (fun _ => Failed ClientError) Demo.db_up in
  probe E "Landsat-9" (mk_datetime 2024 3 5 0 0 0 0) Demo.empty_world =
    (Ok tt, mk_world ∅ [] []
              [mk_params "KEY" "Landsat-9" "2024-03-05T00:00:00Z"]
              [ErrStatus 503 "Landsat-9" "2024-03-05T00:00:00Z"]).
Proof.
  intros E.
  apply (probe_error_logged E "Landsat-9" (mk_datetime 2024 3 5 0 0 0 0) Demo.empty_world
           (ErrStatus 503 "Landsat-9" "2024-03-05T00:00:00Z")).
  reflexivity.
Defined.

(** X8: whatever the answers and whether or not the cycle raises, a cycle
    of the scheduler only appends to the progress table: the old rows stay
    in place, at most 200 rows are added, each for a tracked satellite; the
    request queue is not touched. *)
Theorem cycle_append_only (E : env) (w : world) :
  request_queue (snd (fetch_and_save_data_cycle E w)) = request_queue w /\
  exists new,
    table (snd (fetch_and_save_data_cycle E w)) = table w ++ new /\
    (length new <= 200)%nat /\
    Forall (fun r => In (fst r) SATELLITES) new.
Proof.
  destruct (cycle_grown E w) as (Hq & Hnew & _). split; assumption.
Qed.

(** X9: after a cycle of the scheduler, every cache entry is either an
    entry that was there before, unchanged, or carries the 1814400-second
    expiry and sits under the %Y-%m-%d text of a date, which has the form
    YYYY-MM-DD when the year of that date is 1000 or later. *)
Theorem cycle_cache_entries (E : env) (w : world) (k val : string) (ex : Z) :
  kv (snd (fetch_and_save_data_cycle E w)) !! k = Some (val, ex) ->
  kv w !! k = Some (val, ex) \/
  (ex = 1814400 /\
   exists c, k = strftime_date c /\ (1000 <= year c -> Util.is_iso_date k = true)).
Proof.
  intros H. destruct (cycle_grown E w) as (_ & _ & _ & Hv).
  destruct (Hv k (val, ex) H) as [Hold | [[c ->] Hex]]; [now left|right].
  split; [exact Hex|]. exists c. split; [reflexivity|].
  apply SchedulerFacts.strftime_date_iso.
Qed.

Lemma cycle_cache_entries_witness :
  let E := Demo.demo Demo.plan_api (fun _ => Failed ClientError) Demo.db_up in
  let w := Demo.with_rows [("Landsat-8", "2024-03-04 00:00:00")]%string in
  kv w !! "2024-03-05"%string = None /\
  (exists c, "2024-03-05"%string = strftime_date c) /\
  kv (snd (fetch_and_save_data_cycle E w)) !! "2024-03-05"%string
    = Some (Demo.dumps (VList [Demo.f1]), 1814400).
Proof.
  intros E w.
  assert (H : kv (snd (fetch_and_save_data_cycle E w)) !! "2024-03-05"%string
              = Some (Demo.dumps (VList [Demo.f1]), 1814400)) by (vm_compute; reflexivity).
  destruct (cycle_cache_entries E w _ _ _ H) as [Hold | [_ (c & Hc & _)]].
  - discriminate Hold.
  - split; [reflexivity|]. split; [now exists c|exact H].
Defined.

(** X10: a cycle in which no GET comes back 200 with features (an outage,
    or no acquisitions planned) changes neither the cache nor the progress
    table, so the next cycle starts from the same stored dates. *)
Theorem cycle_nothing_found (E : env) (w : world) :
  (forall p, finds_features E p = false) ->
  kv (snd (fetch_and_save_data_cycle E w)) = kv w /\
  table (snd (fetch_and_save_data_cycle E w)) = table w /\
  forall s, starting_cursor E (snd (fetch_and_save_data_cycle E w)) s = starting_cursor E w s.
Proof.
  intros Hnone.
  destruct (for_each_quiet E SATELLITES Hnone w) as [Hkv Ht].
  split; [exact Hkv|]. split; [exact Ht|].
  intros s. apply SchedulerFacts.starting_cursor_frame.
  unfold fetch_and_save_data_cycle. now rewrite Ht.
Qed.

Lemma cycle_nothing_found_witness :
  let E := Demo.demo (fun _ => Failed ClientError) (fun _ => Failed ClientError) Demo.db_up in
  let w := Demo.with_rows [("Landsat-8", "2024-03-04 00:00:00")]%string in
  kv (snd (fetch_and_save_data_cycle E w)) = ∅ /\
  table (snd (fetch_and_save_data_cycle E w)) = [("Landsat-8", "2024-03-04 00:00:00")]%string.
Proof.
  intros E w.
  destruct (cycle_nothing_found E w) as (Hkv & Ht & _); [reflexivity|].
  split; [exact Hkv|exact Ht].
Defined.

(** X11: the two loops write disjoint parts of the cache: a cycle of the
    scheduler leaves every key beginning with result: as it was, a pass of
    the worker leaves every key of the form YYYY-MM-DD as it was, and no
    result key is ever equal to a date key. *)
Theorem cache_key_spaces (E : env) (w : world) :
  (forall x, kv (snd (fetch_and_save_data_cycle E w)) !! ("result:" ++ x)%string
             = kv w !! ("result:" ++ x)%string) /\
  (forall k, Util.is_iso_date k = true ->
             kv (snd (Worker.worker_iteration E w)) !! k = kv w !! k) /\
  (forall request_id d, Worker.result_key E request_id <> strftime_date d).
Proof.
  split; [|split].
  - intros x. destruct (cycle_grown E w) as (_ & _ & Hk & _).
    apply Hk. intros c. apply result_key_not_date.
  - intros k Hk.
    destruct (WorkerMore.worker_iteration_effect E w) as (w' & Hrun & _ & _ & _ & Hkv).
    rewrite Hrun. cbn [snd].
    destruct Hkv as [-> | (request_id & val & ->)]; [reflexivity|].
    apply lookup_insert_ne. intros <-. unfold Worker.result_key in Hk.
    rewrite result_key_not_iso in Hk. discriminate.
  - intros request_id d. unfold Worker.result_key. apply result_key_not_date.
Qed.

Lemma cache_key_spaces_witness :
  let E := Demo.demo Demo.plan_api (fun _ => Response 200 (Demo.features_body [])) Demo.db_up in
  let w := mk_world (<["result:abc"%string := ("[]"%string, 120)]>
                       (<["2024-03-05"%string := ("[]"%string, 1814400)]> ∅))
             [Demo.raw_abc] [] [] [] in
  kv (snd (fetch_and_save_data_cycle E w)) !! "result:abc"%string = Some ("[]"%string, 120) /\
  kv (snd (Worker.worker_iteration E w)) !! "2024-03-05"%string = Some ("[]"%string, 1814400).
Proof.
  intros E w. destruct (cache_key_spaces E w) as (Hs & Hw & _). split.
  - etransitivity; [exact (Hs "abc"%string)|reflexivity].
  - etransitivity; [exact (Hw "2024-03-05"%string eq_refl)|reflexivity].
Defined.

(** X12: for a cursor d of the years 1000 to 9999: after save_to_db has
    inserted d for a satellite whose earlier records were all written by
    save_to_db for moments of those years not later than d,
    get_the_last_date returns the text of d, and the next starting cursor is
    what strptime makes of that text. *)
Theorem save_then_last_date (E : env) (features : value) (d : datetime)
    (satellite : string) (w : world) (u u' : unit) :
  valid d -> 1000 <= year d ->
  db_ok E (InsertRow satellite (strftime_seconds d)) = Ok u ->
  db_ok E (SelectLast satellite) = Ok u' ->
  Forall (fun x => exists c, valid c /\ 1000 <= year c /\
                             x = strftime_seconds c /\ stamp c <= stamp d)
         (dates_of satellite (table w)) ->
  let w1 := snd (save_to_db E features d satellite w) in
  get_the_last_date E satellite w1 = (Ok (Some (strftime_seconds d)), w1) /\
  start_date E satellite w1 = (strptime E (strftime_seconds d), w1).
Proof.
  intros Hv Hy Hins Hsel Hold w1.
  assert (Htable : table w1 = table w ++ [(satellite, strftime_seconds d)]).
  { subst w1. destruct (SchedulerFacts.save_to_db_effect E features d satellite w) as [_ Ht].
    rewrite Ht, Hins. reflexivity. }
  assert (Hnew : newest (dates_of satellite (table w1)) = Some (strftime_seconds d)).
  { rewrite Htable, SchedulerFacts.dates_of_app.
    unfold dates_of at 2. cbn [List.filter fst]. rewrite String.eqb_refl. cbn [map snd].
    apply newest_app_max. eapply Forall_impl; [exact Hold|].
    intros x (c & Hc & Hyc & -> & Hle). now apply OrderFacts.strftime_seconds_le. }
  split.
  - rewrite SchedulerFacts.get_the_last_date_spec, Hsel, Hnew. reflexivity.
  - rewrite SchedulerFacts.start_date_spec, Hsel. unfold starting_cursor.
    rewrite Hsel, Hnew.
    destruct (String.eqb_spec (strftime_seconds d) EmptyString) as [H|_]; [|reflexivity].
    now destruct (strftime_seconds_nonempty d).
Qed.

Lemma save_then_last_date_witness :
  let E := Demo.demo Demo.plan_api (fun _ => Failed ClientError) Demo.db_up in
  let w := Demo.with_rows [("Landsat-8", "2024-03-04 00:00:00"); ("Landsat-9", "2024-05-01 00:00:00")]%string in
  let w1 := snd (save_to_db E (VList [Demo.f1]) (mk_datetime 2024 3 5 0 0 0 0) "Landsat-8" w) in
  get_the_last_date E "Landsat-8" w1 = (Ok (Some "2024-03-05 00:00:00"%string), w1) /\
  start_date E "Landsat-8" w1 = (Ok (mk_datetime 2024 3 5 0 0 0 0), w1).
Proof.
  intros E w w1.
  apply (save_then_last_date E (VList [Demo.f1]) (mk_datetime 2024 3 5 0 0 0 0)
           "Landsat-8" w tt tt); try reflexivity.
  - unfold valid, MAXYEAR, days_in_month; simpl. lia.
  - simpl. lia.
  - constructor; [|constructor].
    exists (mk_datetime 2024 3 4 0 0 0 0). split; [|split; [|split; [reflexivity|]]].
    + unfold valid, MAXYEAR, days_in_month; simpl. lia.
    + simpl. lia.
    + unfold stamp; simpl. lia.
Defined.

(** X13: when the read succeeds and the satellite's records are texts
    written by save_to_db for moments of the years 1000 to 9999,
    get_the_last_date returns the text of the latest of the recorded
    moments, in whatever order the rows were inserted, and changes nothing. *)
Theorem last_date_latest (E : env) (satellite : string) (w : world) (u : unit)
    (ds : list datetime) :
  db_ok E (SelectLast satellite) = Ok u ->
  dates_of satellite (table w) = map strftime_seconds ds ->
  ds <> [] -> Forall (fun d => valid d /\ 1000 <= year d) ds ->
  exists d,
    In d ds /\ Forall (fun x => stamp x <= stamp d) ds /\
    get_the_last_date E satellite w = (Ok (Some (strftime_seconds d)), w).
Proof.
  intros Hu Hdates Hne Hv.
  destruct (SchedulerFacts.newest_some (map strftime_seconds ds)) as [D HD].
  { destruct ds; [congruence|discriminate]. }
  destruct (OrderFacts.newest_latest ds D Hv HD) as (d & Hin & -> & Hmax).
  exists d. split; [exact Hin|]. split; [exact Hmax|].
  now rewrite SchedulerFacts.get_the_last_date_spec, Hu, Hdates, HD.
Qed.

Lemma last_date_latest_witness :
  let E := Demo.demo Demo.plan_api (fun _ => Failed ClientError) Demo.db_up in
  let w := Demo.with_rows [("Landsat-8", "2024-03-01 00:00:00"); ("Landsat-9", "2024-05-01 00:00:00");
                           ("Landsat-8", "2024-03-04 12:30:00"); ("Landsat-8", "2023-12-31 23:59:59")]%string in
  exists d,
    Forall (fun x => stamp x <= stamp d)
      [mk_datetime 2024 3 1 0 0 0 0; mk_datetime 2024 3 4 12 30 0 0;
       mk_datetime 2023 12 31 23 59 59 0] /\
    get_the_last_date E "Landsat-8" w = (Ok (Some (strftime_seconds d)), w).
Proof.
  intros E w.
  destruct (last_date_latest E "Landsat-8" w tt
              [mk_datetime 2024 3 1 0 0 0 0; mk_datetime 2024 3 4 12 30 0 0;
               mk_datetime 2023 12 31 23 59 59 0])
    as (d & _ & Hmax & Hrun); [reflexivity|reflexivity|discriminate| |].
  - repeat (constructor; [split; [unfold valid, MAXYEAR, days_in_month; simpl; lia
                                 |simpl; lia]|]); constructor.
  - exists d. split; [exact Hmax|exact Hrun].
Defined.

(** X14: when the read succeeds for a tracked satellite and its newest
    record is a non-empty text that strptime rejects, the cycle raises: the
    exception is caught nowhere, whatever the other satellites' records and
    the answers of the API. *)
Theorem cycle_raises_on_unparsable (E : env) (w : world) (s : string) (u : unit)
    (D : string) (e : exn) :
  In s SATELLITES ->
  db_ok E (SelectLast s) = Ok u ->
  newest (dates_of s (table w)) = Some D -> D <> EmptyString ->
  strptime E D = Raise e ->
  exists e', fst (fetch_and_save_data_cycle E w) = Raise e'.
Proof.
  intros Hin Hu HD HDne He.
  exact (for_each_unparsable E SATELLITES w s u D e Hin Hu HD HDne He).
Qed.

Lemma cycle_raises_on_unparsable_witness :
  let E := Demo.demo Demo.plan_api (fun _ => Failed ClientError) Demo.db_up in
  let w := Demo.with_rows [("Landsat-8", "2024-03-04 00:00:00"); ("Landsat-9", "05/03/2024")]%string in
  exists e', fst (fetch_and_save_data_cycle E w) = Raise e'.
Proof.
  intros E w.
  apply (cycle_raises_on_unparsable E w "Landsat-9" tt "05/03/2024" ValueError);
    try reflexivity; [right; now left|discriminate].
Defined.

(** X15: when the starting cursor is a valid date less than 100 days
    before 9999-12-31, the satellite's sweep probes the days that remain and
    then raises OverflowError out of the cursor addition, which no handler
    catches. *)
Theorem sweep_overflow (E : env) (satellite : string) (w : world) (d : datetime) :
  starting_cursor E w satellite = Ok d -> valid d ->
  MAXORDINAL < toordinal d + 100 ->
  exists w',
    sweep_satellite E satellite w = (Raise OverflowError, w') /\
    probes_of satellite w' = probes_of satellite w ++ map strftime_midnight (cursors 100 d) /\
    Z.of_nat (length (cursors 100 d)) = MAXORDINAL - toordinal d.
Proof.
  intros Hstart Hv Hord.
  unfold sweep_satellite, bind. rewrite SchedulerFacts.start_date_spec, Hstart.
  set (w0 := match db_ok E (SelectLast satellite) with
             | Ok _ => w
             | Raise e => logged (ErrLastDate satellite e) w
             end).
  assert (Hs0 : sent w0 = sent w) by (subst w0; destruct (db_ok E _); reflexivity).
  destruct (window_overflow E satellite 100 d w0 Hv) as (w' & Hw & Hs & Hlen);
    [simpl; lia|].
  rewrite Hs0 in Hs.
  exists w'. split; [exact Hw|]. split; [|exact Hlen].
  rewrite (SchedulerFacts.probes_of_sent _ w w' _ Hs).
  now rewrite SchedulerFacts.probes_same.
Qed.

Lemma sweep_overflow_witness :
  let E := Demo.demo Demo.plan_api (fun _ => Failed ClientError) Demo.db_up in
  let w := Demo.with_rows [("Landsat-8", "9999-12-29 00:00:00")]%string in
  exists w',
    sweep_satellite E "Landsat-8" w = (Raise OverflowError, w') /\
    probes_of "Landsat-8" w' = ["9999-12-30T00:00:00Z"; "9999-12-31T00:00:00Z"]%string.
Proof.
  intros E w.
  destruct (sweep_overflow E "Landsat-8" w (mk_datetime 9999 12 29 0 0 0 0))
    as (w' & Hrun & Hp & _); [reflexivity| |vm_compute; reflexivity|].
  - unfold valid, MAXYEAR, days_in_month; simpl. lia.
  - exists w'. split; [exact Hrun|]. rewrite Hp. reflexivity.
Defined.

(** X16: when a probe finds features but the insert into the progress
    table fails, save_to_db swallows the failure: the probe still returns
    normally and still writes the cache entry, the table is unchanged, and
    the log shows the failed save followed by the success line. *)
Theorem probe_insert_fails (E : env) (satellite : string) (date : datetime) (w : world)
    (data found : value) (e : exn) :
  http_get E (params_of E satellite date) = Response 200 (Ok data) ->
  get data "features" = Ok found -> truthy found = true ->
  db_ok E (InsertRow satellite (strftime_seconds date)) = Raise e ->
  exists w',
    probe E satellite date w = (Ok tt, w') /\
    table w' = table w /\
    kv w' = <[strftime_date date := (json_dumps E found, feature_ttl)]> (kv w) /\
    logs w' = InfoSaved satellite (strftime_date date) :: ErrSaveDb satellite e :: logs w.
Proof.
  intros Hget Hfound Ht Hdb. unfold params_of in Hget.
  rewrite (SchedulerFacts.probe_saved E _ _ _ data found Hget Hfound Ht).
  rewrite SchedulerFacts.save_to_db_spec, Hdb.
  eexists; split; [reflexivity|]. repeat split.
Qed.

Lemma probe_insert_fails_witness :
  let E := Demo.demo Demo.plan_api (fun _ => Failed ClientError) Demo.db_down in
  exists w',
    probe E "Landsat-8" (mk_datetime 2024 3 5 0 0 0 0) Demo.empty_world = (Ok tt, w') /\
    table w' = [] /\
    kv w' !! "2024-03-05"%string = Some (Demo.dumps (VList [Demo.f1]), 1814400).
Proof.
  intros E.
  destruct (probe_insert_fails E "Landsat-8" (mk_datetime 2024 3 5 0 0 0 0) Demo.empty_world
              (VDict [("type"%string, VStr "FeatureCollection");
                      ("features"%string, VList [Demo.f1])])
              (VList [Demo.f1]) OperationalError)
    as (w' & Hrun & Htable & Hkv & _); try reflexivity.
  exists w'. split; [exact Hrun|]. split; [exact Htable|]. rewrite Hkv. reflexivity.
Defined.

End SchedulerMore.
